(** * QEC-SFT AI service: the analysis engine of [backend/qec-ai-service/main.py]

    A shallow embedding of [QECAnalysisEngine] and of the properties its
    specification states about it.

    Conventions of the model.
    - Python [float] and [int] values that take part in arithmetic are exact
      rationals ([Q]); literals such as [0.8] are the rationals they denote.
      Rounding of binary floating point is outside the model.
    - Python [str] is the [string] of its UTF-8 bytes; slicing and [len]
      count code points ([take_chars], [py_len]), not bytes.
    - A Python [dict] used as a map is a [gmap]; a [dict] that is iterated
      (the prompts) is an association list in insertion order.
    - Effects (metrics, logging, clock, random source, outbound HTTP) are
      threaded through a state-and-exception monad [M]; the answers of the
      outside world are the oracles of an [Env]. *)

From Stdlib Require Import QArith ZArith String Ascii DecimalString.
From Stdlib Require Import Lqa.
From stdpp Require Import gmap strings list.

Open Scope string_scope.
Set Warnings "-register-all".

(** ** Text helpers *)

Definition dq : string := String "034"%char EmptyString.
Definition nl : string := String "010"%char EmptyString.

(** The lines of a triple-quoted literal, joined by newlines. *)
Definition text (ls : list string) : string := String.concat nl ls.

(** [str(n)] for a Python [int]. *)
Definition str_int (n : Z) : string := NilZero.string_of_int (Z.to_int n).

Fixpoint zeros (n : nat) : string :=
  match n with
  | O => ""
  | S k => String "0"%char (zeros k)
  end.

(** [f"{n:0{w}d}"] for a non-negative [n]: left padding with zeros. *)
Definition pad0 (w : nat) (n : Z) : string :=
  let s := str_int n in zeros (w - String.length s) +:+ s.

(** [s.replace(a, b)] for single characters. *)
Fixpoint replace_char (a b : ascii) (s : string) : string :=
  match s with
  | EmptyString => EmptyString
  | String c r =>
      String (if Ascii.eqb c a then b else c) (replace_char a b r)
  end.

(** A byte that continues a UTF-8 sequence: [10xxxxxx]. *)
Definition is_continuation (c : ascii) : bool :=
  let n := nat_of_ascii c in ((128 <=? n) && (n <? 192))%nat.

(** The first [n] code points of a UTF-8 string: a code point ends where
    the next byte that is not a continuation byte begins. *)
Fixpoint take_chars (n : nat) (s : string) : string :=
  match s with
  | EmptyString => EmptyString
  | String c r =>
      if is_continuation c then String c (take_chars n r)
      else match n with
           | O => EmptyString
           | S k => String c (take_chars k r)
           end
  end.

(** [len(s)]: the number of code points. *)
Fixpoint py_len (s : string) : nat :=
  match s with
  | EmptyString => O
  | String c r => ((if is_continuation c then 0 else 1) + py_len r)%nat
  end.

(** [s[:n]] *)
Definition prefix_slice (n : nat) (s : string) : string := take_chars n s.

(** ** Numbers *)

Definition Qgtb (x y : Q) : bool :=
  match (x ?= y)%Q with Gt => true | _ => false end.
Definition Qltb (x y : Q) : bool :=
  match (x ?= y)%Q with Lt => true | _ => false end.
Definition Qgeb (x y : Q) : bool :=
  match (x ?= y)%Q with Lt => false | _ => true end.

(** [int(x)]: truncation towards zero. *)
Definition int_of (x : Q) : Z := Z.quot (Qnum x) (Zpos (Qden x)).

(** Nearest integer, ties to even: the rounding of [format] and [round]. *)
Definition round_half_even (x : Q) : Z :=
  let d := Zpos (Qden x) in
  let f := Z.div (Qnum x) d in
  let r := (Qnum x - f * d)%Z in
  match (2 * r ?= d)%Z with
  | Lt => f
  | Gt => (f + 1)%Z
  | Eq => if Z.even f then f else (f + 1)%Z
  end.

(** [f"{x:.2f}"] of the exact rational. The program formats the binary
    double nearest to its score, so its text can differ from this one in the
    last digit where that rounding decides a tie; no statement below fixes
    the digits. *)
Definition format_2f (x : Q) : string :=
  let n := Z.abs (round_half_even (x * 100)) in
  (if Qltb x 0 then "-" else "")
    +:+ str_int (n / 100) +:+ "." +:+ pad0 2 (n mod 100).

(** ** JSON values, as [resp.json()] delivers them *)

Inductive json : Type :=
| JNull
| JBool (b : bool)
| JInt (n : Z)
| JNum (q : Q)
| JStr (s : string)
| JArr (items : list json)
| JObj (fields : list (string * json)).

(** ** Exceptions *)

Inductive exn : Type :=
| ZeroDivisionError (msg : string)
| KeyError (repr : string)
| IndexError (msg : string)
| TypeError (msg : string)
| ClientError (msg : string)
| Exception (msg : string)
| HTTPException (status_code : Z) (detail : string).

(** [type(e).__name__] *)
Definition exn_class (e : exn) : string :=
  match e with
  | ZeroDivisionError _ => "ZeroDivisionError"
  | KeyError _ => "KeyError"
  | IndexError _ => "IndexError"
  | TypeError _ => "TypeError"
  | ClientError _ => "ClientError"
  | Exception _ => "Exception"
  | HTTPException _ _ => "HTTPException"
  end.

(** [str(e)] *)
Definition str_exn (e : exn) : string :=
  match e with
  | ZeroDivisionError m | IndexError m | TypeError m
  | ClientError m | Exception m => m
  | KeyError r => r
  | HTTPException c d => str_int c +:+ ": " +:+ d
  end.

(** The [TypeError] of subscripting a value that has no [__getitem__]. *)
Definition not_subscriptable (type_name : string) : exn :=
  TypeError ("'" +:+ type_name +:+ "' object is not subscriptable").

(** [obj[key]] with one of the key literals of the program ([choices],
    [message], [content]), whose [repr] is the key between single quotes. *)
Definition subscript_key (v : json) (key : string) : json + exn :=
  match v with
  | JObj fields =>
      match List.find (fun kv => String.eqb (fst kv) key) fields with
      | Some kv => inl (snd kv)
      | None => inr (KeyError ("'" +:+ key +:+ "'"))
      end
  | JStr _ => inr (TypeError "string indices must be integers, not 'str'")
  | JArr _ => inr (TypeError "list indices must be integers or slices, not str")
  | JNull => inr (not_subscriptable "NoneType")
  | JBool _ => inr (not_subscriptable "bool")
  | JInt _ => inr (not_subscriptable "int")
  | JNum _ => inr (not_subscriptable "float")
  end.

(** [obj[0]] *)
Definition subscript_0 (v : json) : json + exn :=
  match v with
  | JArr (x :: _) => inl x
  | JArr [] => inr (IndexError "list index out of range")
  | JStr EmptyString => inr (IndexError "string index out of range")
  | JStr s => inl (JStr (take_chars 1 s))
  | JObj _ => inr (KeyError "0")
  | JNull => inr (not_subscriptable "NoneType")
  | JBool _ => inr (not_subscriptable "bool")
  | JInt _ => inr (not_subscriptable "int")
  | JNum _ => inr (not_subscriptable "float")
  end.

(** ** The outside world *)

(** What one [session.post] to the provider comes back with: no response
    at all, or a status and a body ([None] when the body is not JSON). *)
Inductive reply : Type :=
| ConnectionFailed (e : exn)
| Response (status : Z) (body : option json).

Definition and_then {A B} (r : A + exn) (k : A -> B + exn) : B + exn :=
  match r with
  | inl a => k a
  | inr e => inr e
  end.

(** What the body of the [async with session.post(...) as resp] block
    computes from a reply: [data['choices'][0]['message']['content']] on
    status 200, an exception otherwise. *)
Definition response_content (r : reply) : json + exn :=
  match r with
  | ConnectionFailed e => inr e
  | Response status body =>
      if (status =? 200)%Z then
        and_then (match body with
                  | Some data => inl data
                  | None => inr (ClientError "Attempt to decode JSON with unexpected mimetype")
                  end) (fun data =>
        and_then (subscript_key data "choices") (fun choices =>
        and_then (subscript_0 choices) (fun choice =>
        and_then (subscript_key choice "message") (fun message =>
        subscript_key message "content"))))
      else inr (Exception ("API error: " +:+ str_int status))
  end.

Record Env : Type := {
  time_at : nat -> Q;          (* time.time() at the n-th clock reading *)
  utcnow_at : nat -> string;   (* datetime.utcnow().isoformat() there *)
  random_at : nat -> Q;        (* the n-th random.random() *)
  perf_counter_at : nat -> Q;  (* the timer of Histogram.time() there *)
  hash_of : string -> Z;       (* hash(s) *)
  getenv : string -> option string;  (* os.getenv(name) *)
  provider : nat -> string -> reply  (* the n-th POST, by its user prompt *)
}.

(** Prometheus metrics of the module. *)
Record Metrics : Type := {
  analysis_requests_total : gmap (string * string) nat;
  analysis_duration : list Q;
  ai_provider_requests : gmap (string * string) nat;
  coherence_score_gauge : gmap string Q;
  active_analyses : Z
}.

Record World : Type := {
  metrics : Metrics;
  logger : list (string * string);   (* (level, message), oldest first *)
  clock : nat;                       (* clock readings so far *)
  rng : nat;                         (* random draws so far *)
  http_posts : list string           (* prompts posted, oldest first *)
}.

Definition with_metrics (f : Metrics -> Metrics) (w : World) : World :=
  {| metrics := f (metrics w); logger := logger w; clock := clock w;
     rng := rng w; http_posts := http_posts w |}.

(** [counter.labels(a, b).inc()] *)
Definition inc_label (k : string * string) (c : gmap (string * string) nat)
  : gmap (string * string) nat :=
  <[k := S (default 0%nat (c !! k))]> c.

(** Reading of a labelled counter. *)
Definition counter_value (c : gmap (string * string) nat) (k : string * string) : nat :=
  default 0%nat (c !! k).

(** ** The monad of the engine: state and exceptions *)

Definition M (A : Type) : Type := World -> (A + exn) * World.

Definition ret {A} (a : A) : M A := fun w => (inl a, w).
Definition raise {A} (e : exn) : M A := fun w => (inr e, w).
Definition bind {A B} (m : M A) (k : A -> M B) : M B :=
  fun w =>
    match m w with
    | (inl a, w') => k a w'
    | (inr e, w') => (inr e, w')
    end.

(** [try: body  except Exception as e: handler(e)] *)
Definition try_except {A} (body : M A) (handler : exn -> M A) : M A :=
  fun w =>
    match body w with
    | (inl a, w') => (inl a, w')
    | (inr e, w') => handler e w'
    end.

(** [try: body  finally: cleanup] *)
Definition try_finally {A} (body : M A) (cleanup : M unit) : M A :=
  fun w =>
    match body w with
    | (r, w') =>
        match cleanup w' with
        | (inl _, w'') => (r, w'')
        | (inr e, w'') => (inr e, w'')
        end
    end.

Definition lift {A} (r : A + exn) : M A := fun w => (r, w).

Declare Scope py_scope.
Delimit Scope py_scope with py.
Notation "x <- m ;; k" := (bind m (fun x => k))
  (at level 100, m at next level, right associativity) : py_scope.
Notation "m ;;; k" := (bind m (fun _ => k))
  (at level 100, right associativity) : py_scope.
Open Scope py_scope.

Definition modify_metrics (f : Metrics -> Metrics) : M unit :=
  fun w => (inl tt, with_metrics f w).

Definition log (level msg : string) : M unit :=
  fun w => (inl tt,
            {| metrics := metrics w; logger := logger w ++ [(level, msg)];
               clock := clock w; rng := rng w; http_posts := http_posts w |}).

Definition tick : M nat :=
  fun w => (inl (clock w),
            {| metrics := metrics w; logger := logger w; clock := S (clock w);
               rng := rng w; http_posts := http_posts w |}).

Definition draw : M nat :=
  fun w => (inl (rng w),
            {| metrics := metrics w; logger := logger w; clock := clock w;
               rng := S (rng w); http_posts := http_posts w |}).

Definition post (prompt : string) : M nat :=
  fun w => (inl (List.length (http_posts w)),
            {| metrics := metrics w; logger := logger w; clock := clock w;
               rng := rng w; http_posts := http_posts w ++ [prompt] |}).

(** The metric updates the engine performs. *)
Definition inc_ai_provider_requests (provider_ status_ : string) : M unit :=
  modify_metrics (fun m =>
    {| analysis_requests_total := analysis_requests_total m;
       analysis_duration := analysis_duration m;
       ai_provider_requests := inc_label (provider_, status_) (ai_provider_requests m);
       coherence_score_gauge := coherence_score_gauge m;
       active_analyses := active_analyses m |}).

Definition inc_analysis_requests_total (analysis_type_ status_ : string) : M unit :=
  modify_metrics (fun m =>
    {| analysis_requests_total := inc_label (analysis_type_, status_) (analysis_requests_total m);
       analysis_duration := analysis_duration m;
       ai_provider_requests := ai_provider_requests m;
       coherence_score_gauge := coherence_score_gauge m;
       active_analyses := active_analyses m |}).

Definition observe_analysis_duration (d : Q) : M unit :=
  modify_metrics (fun m =>
    {| analysis_requests_total := analysis_requests_total m;
       analysis_duration := analysis_duration m ++ [d];
       ai_provider_requests := ai_provider_requests m;
       coherence_score_gauge := coherence_score_gauge m;
       active_analyses := active_analyses m |}).

Definition set_coherence_score_gauge (analysis_id : string) (v : Q) : M unit :=
  modify_metrics (fun m =>
    {| analysis_requests_total := analysis_requests_total m;
       analysis_duration := analysis_duration m;
       ai_provider_requests := ai_provider_requests m;
       coherence_score_gauge := <[analysis_id := v]> (coherence_score_gauge m);
       active_analyses := active_analyses m |}).

Definition add_active_analyses (d : Z) : M unit :=
  modify_metrics (fun m =>
    {| analysis_requests_total := analysis_requests_total m;
       analysis_duration := analysis_duration m;
       ai_provider_requests := ai_provider_requests m;
       coherence_score_gauge := coherence_score_gauge m;
       active_analyses := (active_analyses m + d)%Z |}).

(** ** Data model *)

Module Request.
Record t : Type := {
  lsu : string;
  analysis_type : string;
  ai_provider_preference : option string;
  integration_mode : string;
  metadata : option (list (string * json))
}.
End Request.

Module Stabilizer.
(** One entry of [stabilizer_results]. *)
Record t : Type := {
  name : string;
  outcome : Z;
  confidence : Q;
  weight : Q;
  description : string
}.
End Stabilizer.

Module Risk.
Record t : Type := {
  severity : string;
  impact_analysis : string;
  mitigation_strategy : string
}.
End Risk.

Module Cert.
Record t : Type := {
  diagnosis_id : string;
  lsu_id : string;
  status : string;
  certified_at : string;
  syndrome_vector : list Z;
  sde_version : string;
  coherence_score : Q;
  risk_assessment : Risk.t
}.
End Cert.

Module Payload.
Record meta : Type := {
  creation_timestamp : string;
  processing_duration_ms : Z;
  version : string;
  ai_mode : string
}.
Record t : Type := {
  artifact_id : string;
  artifact_type : string;
  artifact_body : string;
  lsu_id : string;
  representations : gmap string json;
  metadata : meta
}.
End Payload.

Module Signature.
Record t : Type := {
  key_id : string;
  algorithm : string;
  value : string;
  timestamp : string
}.
End Signature.

Module Result.
(** The dictionary returned by [_run_qec_analysis]. *)
Record t : Type := {
  payload : Payload.t;
  certificate_of_semantic_integrity : Cert.t;
  signature : Signature.t;
  ai_provider_used : string
}.
End Result.

Module Response.
Record t : Type := {
  analysis_id : string;
  timestamp : string;
  lsu_input : string;
  qec_result : Result.t;
  opa_policy : option string;
  compliance_status : string;
  audit_trail_id : string;
  recommendations : list string;
  processing_time_ms : Z;
  ai_provider_used : string;
  confidence_score : Q
}.
End Response.

Module Audit.
Record meta : Type := {
  lsu_preview : string;
  ai_provider : string;
  coherence_score : Q
}.
Record t : Type := {
  decision_id : string;
  timestamp : string;
  policy_path : string;
  model_name : string;
  decision : string;
  violations : list string;
  enhanced : bool;
  ai_confidence : Q;
  processing_time_ms : Z;
  compliance_status : string;
  metadata : meta
}.
End Audit.

Record QECAnalysisEngine : Type := {
  nvidia_api_key : option string;
  groq_api_key : option string;
  opa_endpoint : string
}.

(** Truth value of an optional string: [None] and [''] are false. *)
Definition truthy (o : option string) : bool :=
  match o with
  | Some (String _ _) => true
  | _ => false
  end.

(** ** Template Library *)

Definition template_policy_rego (lsu : string) : string :=
  text [
    "package governance";
    "";
    "# Generated from LSU: " +:+ dq +:+ prefix_slice 100 lsu +:+ "..." +:+ dq;
    "";
    "default allow = false";
    "";
    "allow {";
    "    input.action == " +:+ dq +:+ "read" +:+ dq;
    "    input.resource.type == " +:+ dq +:+ "document" +:+ dq;
    "    validate_semantic_rule(input.context)";
    "}";
    "";
    "validate_semantic_rule(context) {";
    "    context.safety_level >= 3";
    "    not context.high_risk_indicators[_]";
    "}" ].

Definition template_specification_tla (lsu : string) : string :=
  text [
    "---- MODULE GovernanceSpec ----";
    "EXTENDS Naturals, Sequences";
    "";
    "\* Generated from LSU: " +:+ dq +:+ prefix_slice 100 lsu +:+ "..." +:+ dq;
    "";
    "VARIABLES state, safety_level, compliance_status";
    "";
    "Init == ";
    "    /\ state = " +:+ dq +:+ "initial" +:+ dq;
    "    /\ safety_level = 0";
    "    /\ compliance_status = " +:+ dq +:+ "pending" +:+ dq;
    "";
    "Next == ";
    "    \/  /\ state = " +:+ dq +:+ "initial" +:+ dq;
    "         /\ safety_level' = 3";
    "         /\ compliance_status' = " +:+ dq +:+ "validated" +:+ dq +:+ " ";
    "         /\ state' = " +:+ dq +:+ "compliant" +:+ dq;
    "    \/  UNCHANGED <<state, safety_level, compliance_status>>";
    "";
    "Spec == Init /\ [][Next]_<<state, safety_level, compliance_status>>";
    "====" ].

Definition template_test_suite_py (lsu : string) : string :=
  text [
    dq +:+ dq +:+ dq;
    "Test suite for governance requirement: " +:+ prefix_slice 100 lsu +:+ "...";
    dq +:+ dq +:+ dq;
    "import pytest";
    "";
    "def test_governance_validation():";
    "    context = {" +:+ dq +:+ "safety_level" +:+ dq +:+ ": 4, "
      +:+ dq +:+ "high_risk_indicators" +:+ dq +:+ ": []}";
    "    assert validate_semantic_rule(context) == True";
    "";
    "def test_safety_threshold():";
    "    context = {" +:+ dq +:+ "safety_level" +:+ dq +:+ ": 2, "
      +:+ dq +:+ "high_risk_indicators" +:+ dq +:+ ": []}";
    "    assert validate_semantic_rule(context) == False";
    "";
    "def validate_semantic_rule(context):";
    "    return context.get(" +:+ dq +:+ "safety_level" +:+ dq
      +:+ ", 0) >= 3 and len(context.get(" +:+ dq +:+ "high_risk_indicators"
      +:+ dq +:+ ", [])) == 0" ].

Definition template_documentation_md (lsu : string) : string :=
  text [
    "# Governance Policy Documentation";
    "";
    "## Requirement";
    lsu;
    "";
    "## Implementation";
    "This policy has been generated using the QEC-SFT platform with enhanced semantic analysis.";
    "";
    "## Validation";
    "- Syntax validation: PASSED";
    "- Semantic consistency: VERIFIED";
    "- Security analysis: COMPLETED";
    "- Performance check: ACCEPTABLE";
    "- Compliance audit: APPROVED";
    "" ].

(** The [templates] dictionary of [_get_template_content], in source order. *)
Definition templates (lsu : string) : list (string * string) :=
  [ ("policy.rego", template_policy_rego lsu);
    ("specification.tla", template_specification_tla lsu);
    ("test_suite.py", template_test_suite_py lsu);
    ("documentation.md", template_documentation_md lsu) ].

(** [d.get(key, default)] on an association list with distinct keys. *)
Fixpoint assoc_get (d : list (string * string)) (key default_ : string) : string :=
  match d with
  | [] => default_
  | (k, v) :: rest => if String.eqb k key then v else assoc_get rest key default_
  end.

Definition _get_template_content (filename lsu : string) : string :=
  assoc_get (templates lsu) filename
    ("# Generated content for " +:+ filename +:+ nl +:+ "# LSU: " +:+ lsu).

Definition _template_generate_representations (lsu : string) : gmap string json :=
  <["documentation.md" := JStr (_get_template_content "documentation.md" lsu)]>
  (<["test_suite.py" := JStr (_get_template_content "test_suite.py" lsu)]>
  (<["specification.tla" := JStr (_get_template_content "specification.tla" lsu)]>
  (<["policy.rego" := JStr (_get_template_content "policy.rego" lsu)]> ∅))).

(** ** The analysis engine *)

(** [for x in xs: acc = body(acc, x)] *)
Fixpoint for_each {A B} (body : A -> B -> M A) (xs : list B) (acc : A) : M A :=
  match xs with
  | [] => ret acc
  | x :: rest => acc' <- body acc x ;; for_each body rest acc'
  end.

(** [sum(xs)]: left to right, starting from 0, in exact arithmetic. *)
Definition py_sum (xs : list Q) : Q := fold_left Qplus xs 0%Q.

(** [x / n] for an integer [n]. *)
Definition py_truediv (x : Q) (n : Z) : Q + exn :=
  if (n =? 0)%Z then inr (ZeroDivisionError "division by zero")
  else inl (x / inject_Z n)%Q.

(** The aggregation expression of [_run_qec_analysis], step 3. *)
Definition aggregate (stabilizer_results : list Stabilizer.t) : Q + exn :=
  py_truediv
    (py_sum (List.map (fun result =>
               (inject_Z (Stabilizer.outcome result) * Stabilizer.confidence result)%Q)
             stabilizer_results))
    (Z.of_nat (List.length stabilizer_results)).

(** The [status] entry of the certificate. *)
Definition status_of (coherence_score : Q) : string :=
  if Qgtb coherence_score 0 then "COHERENT" else "INCOHERENT".

(** The [risk_assessment] entry of the certificate. *)
Definition risk_of (coherence_score : Q) : Risk.t :=
  {| Risk.severity :=
       if Qgtb coherence_score 0.7 then "LOW"
       else if Qltb coherence_score 0.3 then "HIGH" else "MEDIUM";
     Risk.impact_analysis := "Coherence score: " +:+ format_2f coherence_score;
     Risk.mitigation_strategy :=
       if Qgtb coherence_score 0.7 then "Standard monitoring procedures"
       else "Manual review required" |}.

Definition _generate_artifact_body (lsu status : string) : string :=
  if String.eqb status "COHERENT" then
    text [
      "# QEC-SFT Validated Governance Policy";
      "";
      "## Requirement";
      lsu;
      "";
      "## Status";
      "✅ COHERENT - Semantic integrity validated";
      "";
      "## Implementation";
      "This policy has passed all QEC-SFT stabilizer checks and is ready for deployment.";
      "";
      "Generated by ACGS-PGP QEC-SFT Platform v8.2.0-production";
      "" ]
  else
    text [
      "# QEC-SFT Safety Protocol";
      "";
      "## Requirement";
      lsu;
      "";
      "## Status  ";
      "❌ INCOHERENT - Manual review required";
      "";
      "## Action Required";
      "This requirement failed semantic validation and requires expert review before implementation.";
      "";
      "Generated by ACGS-PGP QEC-SFT Platform v8.2.0-production";
      "" ].

Definition _detect_ai_provider (self : QECAnalysisEngine) : string :=
  if truthy (nvidia_api_key self) then "nvidia-enhanced"
  else if truthy (groq_api_key self) then "groq-enhanced"
  else "simulation".

(** The lines of the policy template of [_generate_opa_policy]. *)
Definition opa_policy_lines (certificate : Cert.t) (analysis_type : string) : list string :=
  let coherence_score := Cert.coherence_score certificate in
  [
    "# Generated OPA Policy from QEC-SFT Analysis";
    "# Analysis ID: " +:+ Cert.diagnosis_id certificate;
    "# Coherence Score: " +:+ format_2f coherence_score;
    "# Status: " +:+ Cert.status certificate;
    "";
    "package acgs.qec." +:+ analysis_type;
    "";
    "import future.keywords.if";
    "import future.keywords.in";
    "";
    "default allow = false";
    "";
    "# Main authorization rule based on QEC analysis";
    "allow if {";
    "    qec_coherence_validated";
    "    security_requirements_met";
    "    " +:+ analysis_type +:+ "_specific_checks";
    "}";
    "";
    "# QEC coherence validation";
    "qec_coherence_validated if {";
    "    input.qec_analysis.status == " +:+ dq +:+ "COHERENT" +:+ dq;
    "    input.qec_analysis.coherence_score >= 0.7";
    "}";
    "";
    "# Security requirements";
    "security_requirements_met if {";
    "    count(input.security_violations) == 0";
    "    input.user.authenticated == true";
    "    input.user.role in [" +:+ dq +:+ "authorized_user" +:+ dq +:+ ", "
      +:+ dq +:+ "admin" +:+ dq +:+ "]";
    "}";
    "";
    "# Analysis-specific checks";
    analysis_type +:+ "_specific_checks if {";
    "    input.validation_passed == true";
    "    input.compliance_verified == true";
    "}";
    "";
    "# Violation tracking";
    "violations[msg] {";
    "    input.qec_analysis.status == " +:+ dq +:+ "INCOHERENT" +:+ dq;
    "    msg := " +:+ dq +:+ "QEC analysis failed coherence validation" +:+ dq;
    "}";
    "";
    "violations[msg] {";
    "    input.qec_analysis.coherence_score < 0.7";
    "    msg := sprintf(" +:+ dq +:+ "Coherence score %.2f below threshold" +:+ dq
      +:+ ", [input.qec_analysis.coherence_score])";
    "}";
    "" ].

Definition _generate_opa_policy (qec_result : Result.t) (analysis_type : string) : string :=
  let certificate := Result.certificate_of_semantic_integrity qec_result in
  text (opa_policy_lines certificate analysis_type).

Definition _assess_compliance (qec_result : Result.t) : string :=
  let certificate := Result.certificate_of_semantic_integrity qec_result in
  let coherence_score := Cert.coherence_score certificate in
  if String.eqb (Cert.status certificate) "COHERENT" && Qgeb coherence_score 0.8 then
    "COMPLIANT"
  else if String.eqb (Cert.status certificate) "INCOHERENT" || Qltb coherence_score 0.5 then
    "NON_COMPLIANT"
  else
    "REVIEW_REQUIRED".

Definition _generate_recommendations (qec_result : Result.t) (analysis_type : string)
  : list string :=
  let certificate := Result.certificate_of_semantic_integrity qec_result in
  let recommendations :=
    if String.eqb (Cert.status certificate) "COHERENT" then
      [ "Policy validation successful - ready for deployment";
        "Monitor performance in production environment";
        "Schedule regular compliance reviews" ]
    else
      [ "Address semantic coherence issues before deployment";
        "Review failed stabilizer checks";
        "Consider manual expert review" ] in
  if String.eqb analysis_type "security" then
    recommendations ++ [ "Conduct additional security penetration testing" ]
  else if String.eqb analysis_type "compliance" then
    recommendations ++ [ "Update compliance documentation" ]
  else recommendations.

(** The [audit_entry] dictionary built by [_record_audit_entry]. *)
Definition audit_entry (response : Response.t) : Audit.t :=
  let compliant := String.eqb (Response.compliance_status response) "COMPLIANT" in
  {| Audit.decision_id := Response.analysis_id response;
     Audit.timestamp := Response.timestamp response;
     Audit.policy_path := "acgs.qec.analysis";
     Audit.model_name := "qec-sft-enhanced";
     Audit.decision := if compliant then "ALLOW" else "DENY";
     Audit.violations :=
       if compliant then []
       else [ "QEC: " +:+ Response.compliance_status response ];
     Audit.enhanced := true;
     Audit.ai_confidence := Response.confidence_score response;
     Audit.processing_time_ms := Response.processing_time_ms response;
     Audit.compliance_status := Response.compliance_status response;
     Audit.metadata :=
       {| Audit.lsu_preview := prefix_slice 100 (Response.lsu_input response) +:+ "...";
          Audit.ai_provider := Response.ai_provider_used response;
          Audit.coherence_score := Response.confidence_score response |} |}.

Definition _record_audit_entry (response : Response.t) : M unit :=
  let audit_entry := audit_entry response in
  log "INFO" ("Audit entry recorded: " +:+ Audit.decision_id audit_entry).

(** The [stabilizers] list of [_run_stabilizer_checks]: name and weight. *)
Definition stabilizers : list (string * Q) :=
  [ ("syntax_validation", 0.8%Q);
    ("semantic_consistency", 1.0%Q);
    ("security_analysis", 0.9%Q);
    ("performance_check", 0.7%Q);
    ("compliance_audit", 0.95%Q) ].

(** The [prompts] dictionary of [_ai_generate_representations], in order. *)
Definition prompts (lsu : string) : list (string * string) :=
  [ ("policy.rego", "Generate a complete Rego policy for: " +:+ lsu);
    ("specification.tla", "Create a TLA+ specification for: " +:+ lsu);
    ("test_suite.py", "Write comprehensive Python tests for: " +:+ lsu);
    ("documentation.md", "Create documentation for: " +:+ lsu) ].

Section Engine.

Variable env : Env.

(** [QECAnalysisEngine()] *)
Definition __init__ : QECAnalysisEngine :=
  {| nvidia_api_key := getenv env "NVIDIA_API_KEY";
     groq_api_key := getenv env "GROQ_API_KEY";
     opa_endpoint := default "http://opa-service:8181" (getenv env "OPA_ENDPOINT") |}.

Definition time_time : M Q := n <- tick ;; ret (time_at env n).
Definition utcnow_isoformat : M string := n <- tick ;; ret (utcnow_at env n).
Definition perf_counter : M Q := n <- tick ;; ret (perf_counter_at env n).
Definition random_random : M Q := n <- draw ;; ret (random_at env n).
(** [random.uniform(a, b)] is [a + (b - a) * random()]. With a draw in
    [0, 1) the exact value stays below [b]; the program's rounded value can
    be [b] itself, so ranges are stated with both ends included. *)
Definition random_uniform (a b : Q) : M Q :=
  u <- random_random ;; ret (a + (b - a) * u)%Q.

(** [with analysis_duration.time(): body] *)
Definition analysis_duration_time {A} (body : M A) : M A :=
  t0 <- perf_counter ;;
  try_finally body
    (t1 <- perf_counter ;;
     let d := (t1 - t0)%Q in
     observe_analysis_duration (if Qltb d 0 then 0%Q else d)).

(** One iteration of the loop of [_ai_generate_representations]. *)
Definition generate_one (lsu : string) (representations : gmap string json)
    (item : string * string) : M (gmap string json) :=
  let '(filename, prompt) := item in
  try_except
    (n <- post prompt ;;
     content <- lift (response_content (provider env n prompt)) ;;
     let representations := <[filename := content]> representations in
     inc_ai_provider_requests "nvidia" "success" ;;;
     ret representations)
    (fun e =>
       log "WARNING" ("Failed to generate " +:+ filename +:+ ": " +:+ str_exn e) ;;;
       let representations :=
         <[filename := JStr (_get_template_content filename lsu)]> representations in
       inc_ai_provider_requests "nvidia" "error" ;;;
       ret representations).

(** Opening and closing the [aiohttp.ClientSession] has no effect of its own
    in the model. *)
Definition _ai_generate_representations (self : QECAnalysisEngine) (lsu : string)
  : M (gmap string json) :=
  inc_ai_provider_requests "nvidia" "attempt" ;;;
  for_each (generate_one lsu) (prompts lsu) ∅.

Definition _generate_representations (self : QECAnalysisEngine) (lsu : string)
  : M (gmap string json) :=
  if truthy (nvidia_api_key self) then
    try_except (_ai_generate_representations self lsu)
      (fun e =>
         log "WARNING" ("AI generation failed: " +:+ str_exn e
                        +:+ ", falling back to templates") ;;;
         ret (_template_generate_representations lsu))
  else ret (_template_generate_representations lsu).

Definition _run_stabilizer_checks (self : QECAnalysisEngine) (lsu : string)
    (representations : gmap string json) : M (list Stabilizer.t) :=
  for_each
    (fun results stabilizer =>
       let success_probability := 0.8%Q in
       r <- random_random ;;
       let outcome := if Qltb r success_probability then 1%Z else (-1)%Z in
       confidence <- (if (outcome =? 1)%Z then random_uniform 0.7 0.95
                      else random_uniform 0.3 0.6) ;;
       ret (results ++
            [ {| Stabilizer.name := fst stabilizer;
                 Stabilizer.outcome := outcome;
                 Stabilizer.confidence := confidence;
                 Stabilizer.weight := snd stabilizer;
                 Stabilizer.description :=
                   "Enhanced " +:+ replace_char "_" " " (fst stabilizer) +:+ " check" |} ])%list)
    stabilizers [].

(** Steps 3 and 4 of [_run_qec_analysis]: everything after the stabilizer
    checks have returned. *)
Definition synthesize (self : QECAnalysisEngine) (lsu analysis_id : string)
    (representations : gmap string json) (stabilizer_results : list Stabilizer.t)
  : M Result.t :=
  coherence_score <- lift (aggregate stabilizer_results) ;;
  certified_at <- utcnow_isoformat ;;
  let certificate :=
    {| Cert.diagnosis_id := "diag-" +:+ analysis_id;
       Cert.lsu_id := analysis_id;
       Cert.status := status_of coherence_score;
       Cert.certified_at := certified_at +:+ "Z";
       Cert.syndrome_vector := List.map Stabilizer.outcome stabilizer_results;
       Cert.sde_version := "v8.2.0-production";
       Cert.coherence_score := coherence_score;
       Cert.risk_assessment := risk_of coherence_score |} in
  creation_timestamp <- utcnow_isoformat ;;
  signed_at <- utcnow_isoformat ;;
  ret {| Result.payload :=
           {| Payload.artifact_id := "artifact-" +:+ analysis_id;
              Payload.artifact_type :=
                if String.eqb (Cert.status certificate) "COHERENT"
                then "rego_policy" else "safety_protocol";
              Payload.artifact_body :=
                _generate_artifact_body lsu (Cert.status certificate);
              Payload.lsu_id := analysis_id;
              Payload.representations := representations;
              Payload.metadata :=
                {| Payload.creation_timestamp := creation_timestamp +:+ "Z";
                   Payload.processing_duration_ms := 0;
                   Payload.version := "v8.2.0-production";
                   Payload.ai_mode := "enhanced-analysis" |} |};
         Result.certificate_of_semantic_integrity := certificate;
         Result.signature :=
           {| Signature.key_id := "acgs-pgp-enhanced-key";
              Signature.algorithm := "ECDSA-SHA256";
              Signature.value := "sig-" +:+ analysis_id;
              Signature.timestamp := signed_at +:+ "Z" |};
         Result.ai_provider_used := _detect_ai_provider self |}.

Definition _run_qec_analysis (self : QECAnalysisEngine) (lsu analysis_id : string)
  : M Result.t :=
  representations <- _generate_representations self lsu ;;
  stabilizer_results <- _run_stabilizer_checks self lsu representations ;;
  synthesize self lsu analysis_id representations stabilizer_results.

(** The [try] block of [analyze_governance_requirement]. *)
Definition analyze_body (self : QECAnalysisEngine) (request : Request.t)
    (start_time : Q) (analysis_id : string) : M Response.t :=
  qec_result <- _run_qec_analysis self (Request.lsu request) analysis_id ;;
  let opa_policy :=
    if String.eqb (Request.integration_mode request) "opa"
    then Some (_generate_opa_policy qec_result (Request.analysis_type request))
    else None in
  let compliance_status := _assess_compliance qec_result in
  let recommendations :=
    _generate_recommendations qec_result (Request.analysis_type request) in
  now <- time_time ;;
  let processing_time_ms := int_of ((now - start_time) * 1000) in
  (* qec_result.get('certificate_of_semantic_integrity', {}).get('coherence_score', 0.0):
     both keys are always present in what _run_qec_analysis returns *)
  let coherence_score :=
    Cert.coherence_score (Result.certificate_of_semantic_integrity qec_result) in
  set_coherence_score_gauge analysis_id coherence_score ;;;
  timestamp <- utcnow_isoformat ;;
  let response :=
    {| Response.analysis_id := analysis_id;
       Response.timestamp := timestamp +:+ "Z";
       Response.lsu_input := Request.lsu request;
       Response.qec_result := qec_result;
       Response.opa_policy := opa_policy;
       Response.compliance_status := compliance_status;
       Response.audit_trail_id := "audit-" +:+ analysis_id;
       Response.recommendations := recommendations;
       Response.processing_time_ms := processing_time_ms;
       Response.ai_provider_used := Result.ai_provider_used qec_result;
       Response.confidence_score := coherence_score |} in
  _record_audit_entry response ;;;
  inc_analysis_requests_total (Request.analysis_type request) "success" ;;;
  ret response.

Definition analyze_governance_requirement (self : QECAnalysisEngine)
    (request : Request.t) : M Response.t :=
  start_time <- time_time ;;
  now <- time_time ;;
  let analysis_id :=
    "qec-" +:+ str_int (int_of now) +:+ "-"
      +:+ pad0 4 (hash_of env (Request.lsu request) mod 10000) in
  analysis_duration_time
    (add_active_analyses 1 ;;;
     try_finally
       (try_except
          (analyze_body self request start_time analysis_id)
          (fun e =>
             log "ERROR" ("Analysis failed for " +:+ analysis_id +:+ ": " +:+ str_exn e) ;;;
             inc_analysis_requests_total (Request.analysis_type request) "error" ;;;
             raise (HTTPException 500 ("Analysis failed: " +:+ str_exn e))))
       (add_active_analyses (-1))).

End Engine.

(** ** The properties of the specification, as definitions *)

Abbreviation certificate_of r := (Result.certificate_of_semantic_integrity r).

(** The sum of [outcome * confidence] over the results, term by term. *)
Fixpoint score_sum (results : list Stabilizer.t) : Q :=
  match results with
  | [] => 0%Q
  | r :: rest =>
      (inject_Z (Stabilizer.outcome r) * Stabilizer.confidence r + score_sum rest)%Q
  end.

(** The unweighted mean of [outcome * confidence], in the words of the
    specification: the sum over all results divided by their count. *)
Definition unweighted_mean (results : list Stabilizer.t) : Q :=
  (score_sum results / inject_Z (Z.of_nat (List.length results)))%Q.

(** A mean that would apply the [weight] field, for contrast. *)
Definition weighted_mean (results : list Stabilizer.t) : Q :=
  (fold_right (fun r acc =>
      (Stabilizer.weight r * (inject_Z (Stabilizer.outcome r) * Stabilizer.confidence r)
       + acc)%Q) 0%Q results
   / fold_right (fun r acc => (Stabilizer.weight r + acc)%Q) 0%Q results)%Q.

(** The columns of the results that the aggregation reads. *)
Definition scores (results : list Stabilizer.t) : list (Z * Q) :=
  List.map (fun r => (Stabilizer.outcome r, Stabilizer.confidence r)) results.

(** The four fixed artifact filenames. *)
Definition artifact_filenames : list string :=
  [ "policy.rego"; "specification.tla"; "test_suite.py"; "documentation.md" ].

(** What one artifact kind ends up with when its provider call is the
    [n]-th POST: the content of the reply, or the template on any failure. *)
Definition kind_result (env : Env) (lsu : string) (n : nat) (item : string * string) : json :=
  match response_content (provider env n (snd item)) with
  | inl content => content
  | inr _ => JStr (_get_template_content (fst item) lsu)
  end.

(** Whether the provider call of that kind succeeded. *)
Definition kind_succeeds (env : Env) (n : nat) (item : string * string) : bool :=
  match response_content (provider env n (snd item)) with
  | inl _ => true
  | inr _ => false
  end.

(** The dictionary the loop over the artifact kinds builds when its first
    provider call is the [n]-th POST. *)
Fixpoint fold_kinds (env : Env) (lsu : string) (n : nat) (items : list (string * string))
    (representations : gmap string json) : gmap string json :=
  match items with
  | [] => representations
  | item :: rest =>
      fold_kinds env lsu (S n) rest
        (<[fst item := kind_result env lsu n item]> representations)
  end.

(** The part of the world the provider metrics are about. *)
Definition attempts (w : World) : nat :=
  counter_value (ai_provider_requests (metrics w)) ("nvidia", "attempt").
Definition successes (w : World) : nat :=
  counter_value (ai_provider_requests (metrics w)) ("nvidia", "success").
Definition errors (w : World) : nat :=
  counter_value (ai_provider_requests (metrics w)) ("nvidia", "error").
Definition outcomes (w : World) : nat := (successes w + errors w)%nat.
Definition calls (w : World) : nat := List.length (http_posts w).

(** A computation that leaves the provider counters and the list of
    provider calls alone. *)
Definition provider_view (w : World) : gmap (string * string) nat * list string :=
  (ai_provider_requests (metrics w), http_posts w).
Definition quiet {A} (m : M A) : Prop :=
  forall w, provider_view (snd (m w)) = provider_view w.

(** What one request with a credential does to the provider counters. *)
Definition provider_accounting (lsu : string) (w w' : World) : Prop :=
  http_posts w' = (http_posts w ++ List.map snd (prompts lsu))%list
  /\ attempts w' = S (attempts w)
  /\ outcomes w' = (outcomes w + 4)%nat.
Definition accounts {A} (lsu : string) (m : M A) : Prop :=
  forall w, provider_accounting lsu w (snd (m w)).

(** Rego identifiers: a letter or underscore, then letters, digits, underscores. *)
Definition is_letter (c : ascii) : bool :=
  let n := nat_of_ascii c in
  ((65 <=? n) && (n <=? 90) || (97 <=? n) && (n <=? 122) || (n =? 95))%nat.
Definition is_digit (c : ascii) : bool :=
  let n := nat_of_ascii c in ((48 <=? n) && (n <=? 57))%nat.
Fixpoint all_chars (p : ascii -> bool) (s : string) : bool :=
  match s with
  | EmptyString => true
  | String c r => p c && all_chars p r
  end.
Definition is_identifier (s : string) : bool :=
  match s with
  | EmptyString => false
  | String c r => is_letter c && all_chars (fun x => is_letter x || is_digit x) r
  end.

(** [s.split('\n')] *)
Fixpoint lines_from (cur : string) (s : string) : list string :=
  match s with
  | EmptyString => [cur]
  | String c r =>
      if Ascii.eqb c "010"%char then cur :: lines_from "" r
      else lines_from (cur +:+ String c EmptyString) r
  end.
Definition lines (s : string) : list string := lines_from "" s.

(** [line.removeprefix(p)] when [line] starts with [p]. *)
Fixpoint strip_prefix (p line : string) : option string :=
  match p, line with
  | EmptyString, _ => Some line
  | String a p', String b l' => if Ascii.eqb a b then strip_prefix p' l' else None
  | String _ _, EmptyString => None
  end.

(** The name declared by the first [package] line of a policy. *)
Fixpoint first_package (ls : list string) : option string :=
  match ls with
  | [] => None
  | l :: rest =>
      match strip_prefix "package " l with
      | Some n => Some n
      | None => first_package rest
      end
  end.
Definition package_name (policy : string) : option string := first_package (lines policy).

(** ** Concrete worlds used to exercise the statements *)

Definition no_metrics : Metrics :=
  {| analysis_requests_total := ∅; analysis_duration := [];
     ai_provider_requests := ∅; coherence_score_gauge := ∅; active_analyses := 0 |}.

Definition fresh_world : World :=
  {| metrics := no_metrics; logger := []; clock := 0; rng := 0; http_posts := [] |}.

(** A chat-completion body whose first choice carries [s]. *)
Definition completion (s : string) : json :=
  JObj [ ("choices", JArr [ JObj [ ("message", JObj [ ("content", JStr s) ]) ] ]) ].

(** A provider that answers every call except the second, which gets a 500. *)
Definition flaky_provider (n : nat) (prompt : string) : reply :=
  if Nat.eqb n 1 then Response 500 None
  else Response 200 (Some (completion ("AI: " +:+ prompt))).

Definition sample_env (key : option string) : Env :=
  {| time_at := fun n => (inject_Z (1700000000 + Z.of_nat n) + (1 # 4))%Q;
     utcnow_at := fun n => "2024-01-01T00:00:0" +:+ str_int (Z.of_nat n);
     random_at := fun n => if Nat.even n then (1 # 2)%Q else (9 # 10)%Q;
     perf_counter_at := fun n => inject_Z (Z.of_nat n);
     hash_of := fun _ => (-7)%Z;
     getenv := fun v => if String.eqb v "NVIDIA_API_KEY" then key else None;
     provider := flaky_provider |}.

Definition sample_request (analysis_type : string) : Request.t :=
  {| Request.lsu := "All deployments must pass security review.";
     Request.analysis_type := analysis_type;
     Request.ai_provider_preference := None;
     Request.integration_mode := "opa";
     Request.metadata := None |}.

Definition sample_result (name_ : string) (outcome_ : Z) (confidence_ weight_ : Q)
  : Stabilizer.t :=
  {| Stabilizer.name := name_; Stabilizer.outcome := outcome_;
     Stabilizer.confidence := confidence_; Stabilizer.weight := weight_;
     Stabilizer.description := "Enhanced " +:+ replace_char "_" " " name_ +:+ " check" |}.

Definition sample_results : list Stabilizer.t :=
  [ sample_result "syntax_validation" 1 0.9 0.8;
    sample_result "semantic_consistency" (-1) 0.5 1.0 ].

(** A result dictionary around a certificate with the given status and score. *)
Definition result_with (status_ : string) (score : Q) : Result.t :=
  {| Result.payload :=
       {| Payload.artifact_id := "artifact-x"; Payload.artifact_type := "rego_policy";
          Payload.artifact_body := ""; Payload.lsu_id := "x";
          Payload.representations := ∅;
          Payload.metadata :=
            {| Payload.creation_timestamp := ""; Payload.processing_duration_ms := 0;
               Payload.version := "v8.2.0-production";
               Payload.ai_mode := "enhanced-analysis" |} |};
     Result.certificate_of_semantic_integrity :=
       {| Cert.diagnosis_id := "diag-x"; Cert.lsu_id := "x"; Cert.status := status_;
          Cert.certified_at := ""; Cert.syndrome_vector := [];
          Cert.sde_version := "v8.2.0-production"; Cert.coherence_score := score;
          Cert.risk_assessment := risk_of score |};
     Result.signature :=
       {| Signature.key_id := "acgs-pgp-enhanced-key";
          Signature.algorithm := "ECDSA-SHA256";
          Signature.value := "sig-x"; Signature.timestamp := "" |};
     Result.ai_provider_used := "simulation" |}.

(** A response with the given compliance status. *)
Definition response_with (compliance_status_ : string) (score : Q) : Response.t :=
  {| Response.analysis_id := "x"; Response.timestamp := "";
     Response.lsu_input := "All deployments must pass security review.";
     Response.qec_result := result_with "COHERENT" score;
     Response.opa_policy := None;
     Response.compliance_status := compliance_status_;
     Response.audit_trail_id := "audit-x"; Response.recommendations := [];
     Response.processing_time_ms := 0; Response.ai_provider_used := "simulation";
     Response.confidence_score := score |}.

(** Counting per provider call: both counters move by the number of calls. *)
Definition counted_per_call (w w' : World) : Prop :=
  (attempts w' - attempts w = calls w' - calls w)%nat
  /\ (outcomes w' - outcomes w = calls w' - calls w)%nat.

(** A policy whose package is [acgs.qec.] followed by a safe identifier. *)
Definition embeds_safe_identifier (policy : string) : Prop :=
  exists id, is_identifier id = true /\ package_name policy = Some ("acgs.qec." +:+ id).

(** ** Further notions for the properties of the engine *)

(** What the loop of [_run_stabilizer_checks] appends for one stabilizer
    when its two draws are the [n]-th and the one after it. *)
Definition check_at (env : Env) (n : nat) (stabilizer : string * Q) : Stabilizer.t :=
  let outcome := if Qltb (random_at env n) 0.8 then 1%Z else (-1)%Z in
  {| Stabilizer.name := fst stabilizer;
     Stabilizer.outcome := outcome;
     Stabilizer.confidence :=
       if (outcome =? 1)%Z then (0.7 + (0.95 - 0.7) * random_at env (S n))%Q
       else (0.3 + (0.6 - 0.3) * random_at env (S n))%Q;
     Stabilizer.weight := snd stabilizer;
     Stabilizer.description :=
       "Enhanced " +:+ replace_char "_" " " (fst stabilizer) +:+ " check" |}.

Fixpoint checks_from (env : Env) (n : nat) (xs : list (string * Q)) : list Stabilizer.t :=
  match xs with
  | [] => []
  | x :: rest => check_at env n x :: checks_from env (S (S n)) rest
  end.

(** A random source that answers as [random.random()] does: in [0, 1). *)
Definition unit_random (env : Env) : Prop :=
  forall n, (0 <= random_at env n)%Q /\ (random_at env n < 1)%Q.

(** The range [random.uniform] is asked for, by outcome. *)
Definition confidence_in_range (r : Stabilizer.t) : Prop :=
  (Stabilizer.outcome r = 1%Z
   /\ (0.7 <= Stabilizer.confidence r)%Q /\ (Stabilizer.confidence r < 0.95)%Q)
  \/ (Stabilizer.outcome r = (-1)%Z
      /\ (0.3 <= Stabilizer.confidence r)%Q /\ (Stabilizer.confidence r < 0.6)%Q).

(** The same ranges with both ends included: [random.uniform(a, b)] may
    return [b] itself. *)
Definition confidence_in_closed_range (r : Stabilizer.t) : Prop :=
  (Stabilizer.outcome r = 1%Z
   /\ (0.7 <= Stabilizer.confidence r)%Q /\ (Stabilizer.confidence r <= 0.95)%Q)
  \/ (Stabilizer.outcome r = (-1)%Z
      /\ (0.3 <= Stabilizer.confidence r)%Q /\ (Stabilizer.confidence r <= 0.6)%Q).

(** A computation that leaves a part of the world as it found it. *)
Definition keeps {A B} (part : World -> B) (m : M A) : Prop :=
  forall w, part (snd (m w)) = part w.

Definition in_flight_gauge (w : World) : Z := active_analyses (metrics w).
Definition request_counter (w : World) : gmap (string * string) nat :=
  analysis_requests_total (metrics w).
Definition score_gauge (w : World) : gmap string Q := coherence_score_gauge (metrics w).

(** The frame [analyze_governance_requirement] puts around its [try] block:
    the duration histogram, the in-flight gauge, the [except] and the
    [finally] clauses. *)
Definition in_flight (env : Env) (analysis_type analysis_id : string)
    (body : M Response.t) : M Response.t :=
  analysis_duration_time env
    (add_active_analyses 1 ;;;
     try_finally
       (try_except body
          (fun e =>
             log "ERROR" ("Analysis failed for " +:+ analysis_id +:+ ": " +:+ str_exn e) ;;;
             inc_analysis_requests_total analysis_type "error" ;;;
             raise (HTTPException 500 ("Analysis failed: " +:+ str_exn e))))
       (add_active_analyses (-1))).

(** The world in which the [try] block starts: the histogram timer has been
    read and the in-flight gauge incremented. *)
Definition entered (w : World) : World := snd ((tick ;;; add_active_analyses 1) w).

(** Parts of the world that representation generation cannot reach, and
    parts that the whole of [_run_qec_analysis] cannot reach. *)
Definition generation_frame {B} (part : World -> B) : Prop :=
  (forall prompt, keeps part (post prompt))
  /\ (forall a b, keeps part (inc_ai_provider_requests a b))
  /\ (forall level msg, keeps part (log level msg)).
Definition pipeline_frame {B} (part : World -> B) : Prop :=
  generation_frame part /\ keeps part tick /\ keeps part draw.

(** The identifier [analyze_governance_requirement] forms from the second
    clock reading and the hash of the LSU. *)
Definition analysis_id_of (env : Env) (now : Q) (lsu : string) : string :=
  "qec-" +:+ str_int (int_of now) +:+ "-" +:+ pad0 4 (hash_of env lsu mod 10000).

(** How many of the provider calls for [items] succeed when the first of
    them is the [n]-th POST. *)
Fixpoint count_successes (env : Env) (n : nat) (items : list (string * string)) : nat :=
  match items with
  | [] => 0
  | item :: rest =>
      ((if kind_succeeds env n item then 1 else 0) + count_successes env (S n) rest)%nat
  end.

Definition is_digits (s : string) : bool := all_chars is_digit s.

(** Whether [f"{n:04d}"] is four decimal digits. *)
Definition four_digits (n : nat) : bool :=
  Nat.eqb (String.length (pad0 4 (Z.of_nat n))) 4 && is_digits (pad0 4 (Z.of_nat n)).

(** A provider that is down, and an environment that has only its key. *)
Definition down_provider (n : nat) (prompt : string) : reply :=
  ConnectionFailed (ClientError "Cannot connect to host integrate.api.nvidia.com:443").

Definition down_env : Env :=
  {| time_at := time_at (sample_env None);
     utcnow_at := utcnow_at (sample_env None);
     random_at := random_at (sample_env None);
     perf_counter_at := perf_counter_at (sample_env None);
     hash_of := hash_of (sample_env None);
     getenv := fun v => if String.eqb v "NVIDIA_API_KEY" then Some "nvapi-key" else None;
     provider := down_provider |}.

(** An engine that has a Groq key and no NVIDIA key. *)
Definition groq_only : QECAnalysisEngine :=
  {| nvidia_api_key := None; groq_api_key := Some "gsk-key";
     opa_endpoint := "http://opa-service:8181" |}.

(** [s * n] *)
Fixpoint long_text (n : nat) (s : string) : string :=
  match n with
  | O => ""
  | S k => s +:+ long_text k s
  end.

(** Two requirements of 101 characters that differ in the last one only;
    the first hundred take two bytes each. *)
Definition long_lsu (last : string) : string := long_text 100 "é" +:+ last.

(** A chat-completion body whose first choice carries the JSON value [v]. *)
Definition completion_with (v : json) : json :=
  JObj [ ("id", JStr "cmpl-1");
         ("choices", JArr [ JObj [ ("index", JNum 0);
                                   ("message", JObj [ ("role", JStr "assistant");
                                                      ("content", v) ]) ] ]) ].

(** A provider whose every reply is a 200 with [null] as its content. *)
Definition null_env : Env :=
  {| time_at := time_at (sample_env None);
     utcnow_at := utcnow_at (sample_env None);
     random_at := random_at (sample_env None);
     perf_counter_at := perf_counter_at (sample_env None);
     hash_of := hash_of (sample_env None);
     getenv := fun v => if String.eqb v "NVIDIA_API_KEY" then Some "nvapi-key" else None;
     provider := fun _ _ => Response 200 (Some (completion_with JNull)) |}.

(** A [try] block that fails at once. *)
Definition failing_body : M Response.t := raise (ZeroDivisionError "division by zero").

(** * Proofs *)

(** ** Rational comparisons *)

Lemma Qgtb_spec (x y : Q) : Qgtb x y = true <-> (y < x)%Q.
Proof.
  unfold Qgtb. rewrite (Qgt_alt x y).
  destruct (x ?= y)%Q; split; intros H; congruence.
Qed.

Lemma Qltb_spec (x y : Q) : Qltb x y = true <-> (x < y)%Q.
Proof.
  unfold Qltb. rewrite Qlt_alt.
  destruct (x ?= y)%Q; split; intros H; congruence.
Qed.

Lemma Qgeb_spec (x y : Q) : Qgeb x y = true <-> (y <= x)%Q.
Proof.
  unfold Qgeb. rewrite (Qge_alt x y).
  destruct (x ?= y)%Q; split; intros H; congruence.
Qed.

(** ** Aggregation *)

Lemma fold_left_score_sum (results : list Stabilizer.t) (acc : Q) :
  (fold_left Qplus
     (List.map (fun result =>
        inject_Z (Stabilizer.outcome result) * Stabilizer.confidence result)
      results) acc
   == acc + score_sum results)%Q.
Proof.
  revert acc. induction results as [|r rest IH]; intros acc; simpl.
  - ring.
  - rewrite IH. ring.
Qed.

Lemma aggregate_nonempty (results : list Stabilizer.t) :
  results <> [] ->
  exists s, aggregate results = inl s /\ (s == unweighted_mean results)%Q.
Proof.
  intros Hne. unfold aggregate, py_truediv.
  destruct (Z.eqb_spec (Z.of_nat (List.length results)) 0) as [H0|H0].
  - destruct results; [congruence | simpl in H0; lia].
  - eexists; split; [reflexivity|].
    unfold unweighted_mean, py_sum.
    rewrite fold_left_score_sum. field.
    intros Hq. apply H0.
    unfold Qeq in Hq. simpl in Hq. lia.
Qed.

Lemma aggregate_scores (results results' : list Stabilizer.t) :
  scores results = scores results' -> aggregate results = aggregate results'.
Proof.
  intros H. unfold aggregate.
  assert (Hlen : List.length results = List.length results').
  { rewrite <- (length_map (fun r => (Stabilizer.outcome r, Stabilizer.confidence r)) results).
    fold (scores results). rewrite H. apply length_map. }
  rewrite Hlen. f_equal. f_equal.
  revert results' H Hlen.
  induction results as [|r rest IH]; intros [|r' rest'] H Hlen;
    simpl in *; try discriminate; [reflexivity|].
  injection H as Ho Hc Hrest. rewrite Ho, Hc. f_equal.
  apply IH; [exact Hrest | lia].
Qed.

(** ** Certificate synthesis *)

Lemma synthesize_ok (env : Env) (self : QECAnalysisEngine) (lsu analysis_id : string)
    (representations : gmap string json) (results : list Stabilizer.t)
    (s : Q) (w : World) :
  aggregate results = inl s ->
  exists r w',
    synthesize env self lsu analysis_id representations results w = (inl r, w')
    /\ Cert.coherence_score (certificate_of r) = s
    /\ Cert.status (certificate_of r) = status_of s
    /\ Cert.syndrome_vector (certificate_of r) = List.map Stabilizer.outcome results
    /\ Payload.representations (Result.payload r) = representations
    /\ provider_view w' = provider_view w.
Proof.
  intros Hs. unfold synthesize, bind, lift. rewrite Hs. simpl.
  eexists; eexists; split; [reflexivity|]. simpl. auto.
Qed.

Lemma synthesize_inv (env : Env) (self : QECAnalysisEngine) (lsu analysis_id : string)
    (representations : gmap string json) (results : list Stabilizer.t)
    (w w' : World) (r : Result.t) :
  synthesize env self lsu analysis_id representations results w = (inl r, w') ->
  aggregate results = inl (Cert.coherence_score (certificate_of r))
  /\ Cert.status (certificate_of r) = status_of (Cert.coherence_score (certificate_of r)).
Proof.
  unfold synthesize, bind, lift.
  destruct (aggregate results) as [s|e]; simpl; intros H; [|discriminate].
  injection H as Hr _. subst r. simpl. auto.
Qed.

(** C1. For every non-empty list of stabilizer results the synthesizer
    returns a certificate whose coherence score is the unweighted mean of
    [outcome * confidence] over the results; the [weight] field plays no
    part: any results with the same outcomes and confidences aggregate to
    the very same score. *)
Theorem coherence_score_is_unweighted_mean
    (env : Env) (self : QECAnalysisEngine) (lsu analysis_id : string)
    (representations : gmap string json) (results : list Stabilizer.t) (w : World) :
  results <> [] ->
  exists r w',
    synthesize env self lsu analysis_id representations results w = (inl r, w')
    /\ (Cert.coherence_score (certificate_of r) == unweighted_mean results)%Q
    /\ forall results',
         scores results' = scores results ->
         aggregate results' = inl (Cert.coherence_score (certificate_of r)).
Proof.
  intros Hne.
  destruct (aggregate_nonempty results Hne) as (s & Hs & Hmean).
  destruct (synthesize_ok env self lsu analysis_id representations results s w Hs)
    as (r & w' & Hrun & Hscore & _).
  exists r, w'. split; [exact Hrun|]. rewrite Hscore. split; [exact Hmean|].
  intros results' Hsame. rewrite (aggregate_scores results' results Hsame). exact Hs.
Qed.

Lemma coherence_score_is_unweighted_mean_witness :
  sample_results <> []
  /\ exists r w',
       synthesize (sample_env None) (__init__ (sample_env None))
         "All deployments must pass security review." "qec-1-0001" ∅
         sample_results fresh_world = (inl r, w')
       /\ (Cert.coherence_score (certificate_of r) == unweighted_mean sample_results)%Q
       /\ forall results',
            scores results' = scores sample_results ->
            aggregate results' = inl (Cert.coherence_score (certificate_of r)).
Proof.
  assert (H : sample_results <> []) by (unfold sample_results; discriminate).
  split; [exact H|].
  apply (coherence_score_is_unweighted_mean (sample_env None) (__init__ (sample_env None))
           "All deployments must pass security review." "qec-1-0001" ∅
           sample_results fresh_world H).
Defined.

(** The mean that applies the weights is a different number. *)
Example weighted_mean_differs :
  ~ (unweighted_mean sample_results == weighted_mean sample_results)%Q.
Proof. vm_compute. discriminate. Qed.

(** Were the result list empty, the division would raise; the runner never
    returns such a list (see [stabilizer_checks_exact]). *)
Lemma synthesize_empty (env : Env) (self : QECAnalysisEngine) (lsu analysis_id : string)
    (representations : gmap string json) (w : World) :
  synthesize env self lsu analysis_id representations [] w
  = (inr (ZeroDivisionError "division by zero"), w).
Proof. reflexivity. Qed.

(** ** Status *)

Lemma status_of_coherent (s : Q) : status_of s = "COHERENT" <-> (0 < s)%Q.
Proof.
  unfold status_of. rewrite <- Qgtb_spec.
  destruct (Qgtb s 0); split; intros H; congruence.
Qed.

(** C5. The status of a certificate is COHERENT exactly when its
    coherence score is strictly positive, for every score and in every
    certificate the synthesizer returns; a score of zero gives INCOHERENT. *)
Theorem status_coherent_iff_score_positive :
  (forall s : Q, status_of s = "COHERENT" <-> (0 < s)%Q)
  /\ (forall s : Q, (s == 0)%Q -> status_of s = "INCOHERENT")
  /\ (forall (env : Env) (self : QECAnalysisEngine) (lsu analysis_id : string)
        (representations : gmap string json) (results : list Stabilizer.t)
        (w w' : World) (r : Result.t),
        synthesize env self lsu analysis_id representations results w = (inl r, w') ->
        (Cert.status (certificate_of r) = "COHERENT"
         <-> (0 < Cert.coherence_score (certificate_of r))%Q)
        /\ (Cert.status (certificate_of r) = "COHERENT"
            \/ Cert.status (certificate_of r) = "INCOHERENT")).
Proof.
  split; [exact status_of_coherent|]. split.
  - intros s Hs. unfold status_of.
    destruct (Qgtb s 0) eqn:E; [|reflexivity].
    apply Qgtb_spec in E. rewrite Hs in E. discriminate.
  - intros env self lsu analysis_id representations results w w' r Hrun.
    destruct (synthesize_inv _ _ _ _ _ _ _ _ _ Hrun) as [_ Hst].
    rewrite Hst. split; [apply status_of_coherent|].
    unfold status_of. destruct (Qgtb _ 0); auto.
Qed.

Lemma status_coherent_iff_score_positive_witness :
  status_of 0 = "INCOHERENT"
  /\ (status_of 0.01 = "COHERENT" <-> (0 < 0.01)%Q)
  /\ exists r w',
       synthesize (sample_env None) (__init__ (sample_env None))
         "All deployments must pass security review." "qec-1-0001" ∅
         sample_results fresh_world = (inl r, w')
       /\ (Cert.status (certificate_of r) = "COHERENT"
           <-> (0 < Cert.coherence_score (certificate_of r))%Q).
Proof.
  destruct status_coherent_iff_score_positive as (Hrule & Hzero & Hcert).
  split; [apply Hzero; reflexivity|]. split; [apply Hrule|].
  destruct (synthesize_ok (sample_env None) (__init__ (sample_env None))
              "All deployments must pass security review." "qec-1-0001" ∅
              sample_results _ fresh_world eq_refl) as (r & w' & Hrun & _).
  exists r, w'. split; [exact Hrun|].
  exact (proj1 (Hcert _ _ _ _ _ _ _ _ _ Hrun)).
Defined.

(** ** Compliance *)

(** C3. The compliance classification of a certificate follows the three
    rules in their order: COMPLIANT for status COHERENT with a score of at
    least 0.8; failing that, NON_COMPLIANT for status INCOHERENT or a score
    below 0.5; failing both, REVIEW_REQUIRED. In particular status
    INCOHERENT gives NON_COMPLIANT whatever the score, and status COHERENT
    with a score in [0.5, 0.8) gives REVIEW_REQUIRED. *)
Theorem assess_compliance_rules (qec_result : Result.t) :
  let status := Cert.status (certificate_of qec_result) in
  let score := Cert.coherence_score (certificate_of qec_result) in
  let rule1 := status = "COHERENT" /\ (0.8 <= score)%Q in
  let rule2 := status = "INCOHERENT" \/ (score < 0.5)%Q in
  (rule1 -> _assess_compliance qec_result = "COMPLIANT")
  /\ (~ rule1 -> rule2 -> _assess_compliance qec_result = "NON_COMPLIANT")
  /\ (~ rule1 -> ~ rule2 -> _assess_compliance qec_result = "REVIEW_REQUIRED")
  /\ (status = "INCOHERENT" -> _assess_compliance qec_result = "NON_COMPLIANT")
  /\ (status = "COHERENT" -> (0.5 <= score)%Q -> (score < 0.8)%Q ->
      _assess_compliance qec_result = "REVIEW_REQUIRED").
Proof.
  intros status score rule1 rule2. subst rule1 rule2.
  unfold _assess_compliance. fold status. fold score.
  pose proof (Qgeb_spec score 0.8) as Hge.
  pose proof (Qltb_spec score 0.5) as Hlt.
  pose proof (Qlt_not_le score 0.8) as Hband.
  pose proof (Qlt_not_le score 0.5) as Hlow.
  destruct (String.eqb_spec status "COHERENT") as [Hc|Hc];
    destruct (String.eqb_spec status "INCOHERENT") as [Hi|Hi];
    destruct (Qgeb score 0.8); destruct (Qltb score 0.5); simpl;
    try (rewrite Hc in Hi; discriminate).
  all: repeat split; intros; try reflexivity; exfalso.
  all: intuition congruence.
Qed.

Lemma assess_compliance_rules_witness :
  _assess_compliance (result_with "COHERENT" 0.85) = "COMPLIANT"
  /\ _assess_compliance (result_with "INCOHERENT" 0.9) = "NON_COMPLIANT"
  /\ _assess_compliance (result_with "COHERENT" 0.6) = "REVIEW_REQUIRED".
Proof.
  split; [|split].
  - apply (proj1 (assess_compliance_rules (result_with "COHERENT" 0.85))).
    split; [reflexivity | vm_compute; discriminate].
  - apply (proj1 (proj2 (proj2 (proj2 (assess_compliance_rules (result_with "INCOHERENT" 0.9)))))).
    reflexivity.
  - apply (proj2 (proj2 (proj2 (proj2 (assess_compliance_rules (result_with "COHERENT" 0.6)))))).
    + reflexivity.
    + vm_compute; discriminate.
    + reflexivity.
Defined.

(** ** Audit entry *)

(** C9. The decision of the audit entry is ALLOW exactly when the
    compliance status of the response is COMPLIANT and DENY otherwise, so
    DENY for NON_COMPLIANT and for REVIEW_REQUIRED; the violations are empty
    exactly when the decision is ALLOW, and otherwise are the single entry
    that names the compliance status. *)
Theorem audit_decision_rule (response : Response.t) :
  let entry := audit_entry response in
  let compliance := Response.compliance_status response in
  (Audit.decision entry = "ALLOW" <-> compliance = "COMPLIANT")
  /\ (Audit.decision entry = "DENY" <-> compliance <> "COMPLIANT")
  /\ (compliance = "NON_COMPLIANT" \/ compliance = "REVIEW_REQUIRED" ->
      Audit.decision entry = "DENY")
  /\ (Audit.violations entry = [] <-> Audit.decision entry = "ALLOW")
  /\ (Audit.decision entry <> "ALLOW" ->
      Audit.violations entry = [ "QEC: " +:+ compliance ])
  /\ Audit.compliance_status entry = compliance.
Proof.
  intros entry compliance. subst entry. unfold audit_entry. fold compliance. simpl.
  destruct (String.eqb_spec compliance "COMPLIANT") as [Heq|Hne].
  - repeat split; intros; try reflexivity; try assumption; try discriminate;
      try congruence.
    destruct H as [H|H]; rewrite H in Heq; discriminate.
  - repeat split; intros; try reflexivity; try assumption; try discriminate;
      try congruence.
Qed.

Lemma audit_decision_rule_witness :
  Audit.decision (audit_entry (response_with "COMPLIANT" 0.85)) = "ALLOW"
  /\ Audit.decision (audit_entry (response_with "NON_COMPLIANT" 0.2)) = "DENY"
  /\ Audit.decision (audit_entry (response_with "REVIEW_REQUIRED" 0.6)) = "DENY"
  /\ Audit.violations (audit_entry (response_with "REVIEW_REQUIRED" 0.6))
     = [ "QEC: REVIEW_REQUIRED" ].
Proof.
  split; [|split; [|split]].
  - apply (proj1 (audit_decision_rule (response_with "COMPLIANT" 0.85))). reflexivity.
  - apply (proj1 (proj2 (proj2 (audit_decision_rule (response_with "NON_COMPLIANT" 0.2))))).
    left. reflexivity.
  - apply (proj1 (proj2 (proj2 (audit_decision_rule (response_with "REVIEW_REQUIRED" 0.6))))).
    right. reflexivity.
  - apply (proj1 (proj2 (proj2 (proj2 (proj2
             (audit_decision_rule (response_with "REVIEW_REQUIRED" 0.6))))))).
    discriminate.
Defined.

(** ** Effects on the provider counters *)

Create HintDb engine.

Lemma quiet_ret {A} (a : A) : quiet (ret a).
Proof. intros w. reflexivity. Qed.

Lemma quiet_raise {A} (e : exn) : quiet (@raise A e).
Proof. intros w. reflexivity. Qed.

Lemma quiet_lift {A} (r : A + exn) : quiet (lift r).
Proof. intros w. reflexivity. Qed.

Lemma quiet_log (level msg : string) : quiet (log level msg).
Proof. intros w. reflexivity. Qed.

Lemma quiet_tick : quiet tick.
Proof. intros w. reflexivity. Qed.

Lemma quiet_draw : quiet draw.
Proof. intros w. reflexivity. Qed.

Lemma quiet_inc_analysis_requests_total (a b : string) :
  quiet (inc_analysis_requests_total a b).
Proof. intros w. reflexivity. Qed.

Lemma quiet_observe_analysis_duration (d : Q) : quiet (observe_analysis_duration d).
Proof. intros w. reflexivity. Qed.

Lemma quiet_set_coherence_score_gauge (k : string) (v : Q) :
  quiet (set_coherence_score_gauge k v).
Proof. intros w. reflexivity. Qed.

Lemma quiet_add_active_analyses (d : Z) : quiet (add_active_analyses d).
Proof. intros w. reflexivity. Qed.

Lemma quiet_bind {A B} (m : M A) (k : A -> M B) :
  quiet m -> (forall a, quiet (k a)) -> quiet (bind m k).
Proof.
  intros Hm Hk w. unfold bind. specialize (Hm w).
  destruct (m w) as [[a|e] w1]; simpl in *; [rewrite Hk|]; exact Hm.
Qed.

Lemma quiet_try_except {A} (body : M A) (handler : exn -> M A) :
  quiet body -> (forall e, quiet (handler e)) -> quiet (try_except body handler).
Proof.
  intros Hb Hh w. unfold try_except. specialize (Hb w).
  destruct (body w) as [[a|e] w1]; simpl in *; [|rewrite Hh]; exact Hb.
Qed.

Lemma quiet_try_finally {A} (body : M A) (cleanup : M unit) :
  quiet body -> quiet cleanup -> quiet (try_finally body cleanup).
Proof.
  intros Hb Hc w. unfold try_finally. specialize (Hb w).
  destruct (body w) as [r w1]. specialize (Hc w1).
  destruct (cleanup w1) as [[u|e] w2]; simpl in *; congruence.
Qed.

Lemma quiet_for_each {A B} (body : A -> B -> M A) (xs : list B) :
  (forall acc x, quiet (body acc x)) -> forall acc, quiet (for_each body xs acc).
Proof.
  intros Hbody. induction xs as [|x rest IH]; intros acc; simpl.
  - apply quiet_ret.
  - apply quiet_bind; [apply Hbody | exact IH].
Qed.

#[local] Hint Resolve quiet_ret quiet_raise quiet_lift quiet_log quiet_tick quiet_draw
  quiet_inc_analysis_requests_total quiet_observe_analysis_duration
  quiet_set_coherence_score_gauge quiet_add_active_analyses
  quiet_bind quiet_try_except quiet_try_finally quiet_for_each : engine.

Lemma provider_accounting_view (lsu : string) (w1 w1' w2 w2' : World) :
  provider_view w1 = provider_view w1' ->
  provider_view w2 = provider_view w2' ->
  provider_accounting lsu w1 w2 -> provider_accounting lsu w1' w2'.
Proof.
  unfold provider_view, provider_accounting, attempts, outcomes, successes, errors.
  intros H1 H2. injection H1 as Hc1 Hp1. injection H2 as Hc2 Hp2.
  rewrite Hc1, Hp1, Hc2, Hp2. auto.
Qed.

Lemma accounts_bind_l {A B} (lsu : string) (m : M A) (k : A -> M B) :
  accounts lsu m -> (forall a, quiet (k a)) -> accounts lsu (bind m k).
Proof.
  intros Hm Hk w. unfold bind. specialize (Hm w).
  destruct (m w) as [[a|e] w1]; simpl in *; [|exact Hm].
  eapply provider_accounting_view; [reflexivity | symmetry; apply Hk | exact Hm].
Qed.

Lemma accounts_bind_r {A B} (lsu : string) (m : M A) (k : A -> M B) :
  quiet m -> (forall a, accounts lsu (k a)) ->
  (forall w e w', m w = (inr e, w') -> False) ->
  accounts lsu (bind m k).
Proof.
  intros Hm Hk Hok w. unfold bind. specialize (Hm w).
  destruct (m w) as [[a|e] w1] eqn:E; simpl in *.
  - eapply provider_accounting_view; [exact Hm | reflexivity | apply Hk].
  - exfalso. exact (Hok _ _ _ E).
Qed.

Lemma accounts_try_except {A} (lsu : string) (body : M A) (handler : exn -> M A) :
  accounts lsu body -> (forall e, quiet (handler e)) ->
  accounts lsu (try_except body handler).
Proof.
  intros Hb Hh w. unfold try_except. specialize (Hb w).
  destruct (body w) as [[a|e] w1]; simpl in *; [exact Hb|].
  eapply provider_accounting_view; [reflexivity | symmetry; apply Hh | exact Hb].
Qed.

Lemma accounts_try_finally {A} (lsu : string) (body : M A) (cleanup : M unit) :
  accounts lsu body -> quiet cleanup -> accounts lsu (try_finally body cleanup).
Proof.
  intros Hb Hc w. unfold try_finally. specialize (Hb w).
  destruct (body w) as [r w1]. specialize (Hc w1).
  destruct (cleanup w1) as [[u|e] w2]; simpl in *;
    (eapply provider_accounting_view; [reflexivity | symmetry; exact Hc | exact Hb]).
Qed.

(** ** Representation generation *)

Lemma counter_inc_same (k : string * string) (c : gmap (string * string) nat) :
  counter_value (inc_label k c) k = S (counter_value c k).
Proof. unfold counter_value, inc_label. rewrite lookup_insert_eq. reflexivity. Qed.

Lemma counter_inc_other (k k' : string * string) (c : gmap (string * string) nat) :
  k <> k' -> counter_value (inc_label k c) k' = counter_value c k'.
Proof.
  intros Hne. unfold counter_value, inc_label.
  rewrite lookup_insert_ne by exact Hne. reflexivity.
Qed.

Lemma generate_one_run (env : Env) (lsu : string) (representations : gmap string json)
    (item : string * string) (w : World) :
  exists w',
    generate_one env lsu representations item w
    = (inl (<[fst item := kind_result env lsu (calls w) item]> representations), w')
    /\ http_posts w' = (http_posts w ++ [snd item])%list
    /\ attempts w' = attempts w
    /\ successes w' = (successes w + if kind_succeeds env (calls w) item then 1 else 0)%nat
    /\ errors w' = (errors w + if kind_succeeds env (calls w) item then 0 else 1)%nat.
Proof.
  destruct item as [filename prompt].
  unfold generate_one, try_except, bind, post, lift, kind_result, kind_succeeds, calls.
  simpl.
  destruct (response_content (provider env (List.length (http_posts w)) prompt))
    as [content|e]; simpl.
  all: eexists; split; [reflexivity|]; simpl.
  all: unfold attempts, successes, errors; simpl.
  all: rewrite ?counter_inc_same, ?counter_inc_other by discriminate.
  all: repeat split; lia.
Qed.

Lemma for_each_generate_run (env : Env) (lsu : string) (items : list (string * string)) :
  forall (representations : gmap string json) (w : World),
  exists w',
    for_each (generate_one env lsu) items representations w
    = (inl (fold_kinds env lsu (calls w) items representations), w')
    /\ http_posts w' = (http_posts w ++ List.map snd items)%list
    /\ attempts w' = attempts w
    /\ outcomes w' = (outcomes w + List.length items)%nat.
Proof.
  induction items as [|item rest IH]; intros representations w; simpl.
  - exists w. unfold ret. rewrite app_nil_r. repeat split; lia.
  - destruct (generate_one_run env lsu representations item w)
      as (w1 & Hrun & Hposts & Hatt & Hsucc & Herr).
    unfold bind. rewrite Hrun.
    destruct (IH (<[fst item := kind_result env lsu (calls w) item]> representations) w1)
      as (w2 & Hrest & Hposts2 & Hatt2 & Hout2).
    assert (Hcalls : calls w1 = S (calls w)).
    { unfold calls. rewrite Hposts, length_app. simpl. lia. }
    rewrite Hcalls in Hrest. exists w2. split; [exact Hrest|].
    split; [rewrite Hposts2, Hposts, <- app_assoc; reflexivity|].
    split; [congruence|].
    rewrite Hout2. unfold outcomes. rewrite Hsucc, Herr.
    destruct (kind_succeeds env (calls w) item); lia.
Qed.

Lemma ai_generate_run (env : Env) (self : QECAnalysisEngine) (lsu : string) (w : World) :
  exists w',
    _ai_generate_representations env self lsu w
    = (inl (fold_kinds env lsu (calls w) (prompts lsu) ∅), w')
    /\ provider_accounting lsu w w'.
Proof.
  unfold _ai_generate_representations, bind.
  set (w0 := snd (inc_ai_provider_requests "nvidia" "attempt" w)).
  change (inc_ai_provider_requests "nvidia" "attempt" w) with (inl tt : unit + exn, w0).
  cbv iota beta.
  destruct (for_each_generate_run env lsu (prompts lsu) ∅ w0)
    as (w' & Hrun & Hposts & Hatt & Hout).
  change (calls w0) with (calls w) in Hrun.
  exists w'. split; [exact Hrun|].
  unfold provider_accounting. rewrite Hposts, Hatt, Hout.
  subst w0. unfold attempts, outcomes, successes, errors. simpl.
  rewrite counter_inc_same, !counter_inc_other by discriminate.
  auto.
Qed.

Lemma generate_representations_with_key (env : Env) (self : QECAnalysisEngine)
    (lsu : string) (w : World) :
  truthy (nvidia_api_key self) = true ->
  exists w',
    _generate_representations env self lsu w
    = (inl (fold_kinds env lsu (calls w) (prompts lsu) ∅), w')
    /\ provider_accounting lsu w w'.
Proof.
  intros Hkey. unfold _generate_representations, try_except. rewrite Hkey.
  destruct (ai_generate_run env self lsu w) as (w' & Hrun & Hacc).
  rewrite Hrun. eauto.
Qed.

Lemma generate_representations_without_key (env : Env) (self : QECAnalysisEngine)
    (lsu : string) (w : World) :
  truthy (nvidia_api_key self) = false ->
  _generate_representations env self lsu w
  = (inl (_template_generate_representations lsu), w).
Proof.
  intros Hkey. unfold _generate_representations. rewrite Hkey. reflexivity.
Qed.

Lemma template_lookup (lsu filename : string) :
  In filename artifact_filenames ->
  _template_generate_representations lsu !! filename
  = Some (JStr (_get_template_content filename lsu)).
Proof.
  intros Hin. unfold _template_generate_representations.
  simpl in Hin. destruct Hin as [<-|[<-|[<-|[<-|[]]]]].
  all: repeat (rewrite lookup_insert_ne by discriminate).
  all: apply lookup_insert_eq.
Qed.

(** C6. Without a provider credential ([NVIDIA_API_KEY] unset or empty) the
    generator makes no provider call and returns, for each of the four
    artifact filenames, exactly the Template Library content for that
    filename and the given LSU. *)
Theorem no_credential_gives_templates (env : Env) (self : QECAnalysisEngine)
    (lsu : string) (w : World) :
  truthy (nvidia_api_key self) = false ->
  exists representations,
    _generate_representations env self lsu w = (inl representations, w)
    /\ (forall filename, In filename artifact_filenames ->
        representations !! filename = Some (JStr (_get_template_content filename lsu)))
    /\ representations !! "policy.rego" = Some (JStr (template_policy_rego lsu))
    /\ representations !! "specification.tla" = Some (JStr (template_specification_tla lsu))
    /\ representations !! "test_suite.py" = Some (JStr (template_test_suite_py lsu))
    /\ representations !! "documentation.md" = Some (JStr (template_documentation_md lsu)).
Proof.
  intros Hkey. exists (_template_generate_representations lsu).
  split; [apply generate_representations_without_key; exact Hkey|].
  split; [intros filename; apply template_lookup|].
  repeat split; (rewrite template_lookup; [reflexivity | simpl; tauto]).
Qed.

Lemma no_credential_gives_templates_witness :
  exists representations,
    _generate_representations (sample_env None) (__init__ (sample_env None))
      "All deployments must pass security review." fresh_world
    = (inl representations, fresh_world)
    /\ representations !! "documentation.md"
       = Some (JStr (template_documentation_md "All deployments must pass security review.")).
Proof.
  destruct (no_credential_gives_templates (sample_env None) (__init__ (sample_env None))
              "All deployments must pass security review." fresh_world eq_refl)
    as (representations & Hrun & _ & _ & _ & _ & Hdoc).
  exists representations. split; [exact Hrun | exact Hdoc].
Defined.

(** C2. Representation generation never fails and returns a value for each
    of the four artifact filenames. With a credential, every kind gets its
    own provider call, whatever happened to the calls before it, and every
    kind ends with the content of the reply to its own call, or with the
    Template Library content when that call failed: a failure is confined
    to its own kind. *)
Theorem representations_always_generated (env : Env) (self : QECAnalysisEngine)
    (lsu : string) (w : World) :
  exists representations w',
    _generate_representations env self lsu w = (inl representations, w')
    /\ (forall filename, In filename artifact_filenames ->
        is_Some (representations !! filename))
    /\ (truthy (nvidia_api_key self) = true ->
        http_posts w' = (http_posts w ++ List.map snd (prompts lsu))%list
        /\ forall (i : nat) (filename prompt : string),
             prompts lsu !! i = Some (filename, prompt) ->
             representations !! filename
             = Some (match response_content (provider env (calls w + i) prompt) with
                     | inl content => content
                     | inr _ => JStr (_get_template_content filename lsu)
                     end)).
Proof.
  destruct (truthy (nvidia_api_key self)) eqn:Hkey.
  - destruct (generate_representations_with_key env self lsu w Hkey)
      as (w' & Hrun & Hposts & _).
    exists (fold_kinds env lsu (calls w) (prompts lsu) ∅), w'.
    split; [exact Hrun|].
    assert (Hkinds : forall (i : nat) (filename prompt : string),
              prompts lsu !! i = Some (filename, prompt) ->
              fold_kinds env lsu (calls w) (prompts lsu) ∅ !! filename
              = Some (kind_result env lsu (calls w + i) (filename, prompt))).
    { intros i filename prompt Hi. simpl.
      destruct i as [|[|[|[|i]]]]; simpl in Hi; try discriminate;
        injection Hi as <- <-.
      all: repeat (rewrite lookup_insert_ne by discriminate).
      all: rewrite lookup_insert_eq.
      all: do 2 f_equal; lia. }
    split.
    + intros filename Hin. simpl in Hin.
      destruct Hin as [<-|[<-|[<-|[<-|[]]]]].
      * rewrite (Hkinds 0%nat _ _ eq_refl). eauto.
      * rewrite (Hkinds 1%nat _ _ eq_refl). eauto.
      * rewrite (Hkinds 2%nat _ _ eq_refl). eauto.
      * rewrite (Hkinds 3%nat _ _ eq_refl). eauto.
    + intros _. split; [exact Hposts|].
      intros i filename prompt Hi. rewrite (Hkinds i filename prompt Hi). reflexivity.
  - exists (_template_generate_representations lsu), w.
    split; [apply generate_representations_without_key; exact Hkey|].
    split; [|discriminate].
    intros filename Hin. rewrite (template_lookup lsu filename Hin). eauto.
Qed.

Lemma representations_always_generated_witness :
  let lsu := "All deployments must pass security review." in
  let env := sample_env (Some "nvapi-key") in
  exists representations w',
    _generate_representations env (__init__ env) lsu fresh_world = (inl representations, w')
    /\ representations !! "policy.rego"
       = Some (JStr ("AI: Generate a complete Rego policy for: " +:+ lsu))
    /\ representations !! "specification.tla" = Some (JStr (template_specification_tla lsu))
    /\ representations !! "test_suite.py"
       = Some (JStr ("AI: Write comprehensive Python tests for: " +:+ lsu))
    /\ representations !! "documentation.md"
       = Some (JStr ("AI: Create documentation for: " +:+ lsu)).
Proof.
  intros lsu env.
  destruct (representations_always_generated env (__init__ env) lsu fresh_world)
    as (representations & w' & Hrun & _ & Hkey).
  destruct (Hkey eq_refl) as [_ Hkinds].
  exists representations, w'. split; [exact Hrun|].
  split; [exact (Hkinds 0%nat _ _ eq_refl)|].
  split; [exact (Hkinds 1%nat _ _ eq_refl)|].
  split; [exact (Hkinds 2%nat _ _ eq_refl) | exact (Hkinds 3%nat _ _ eq_refl)].
Defined.

(** ** The pipeline and the provider counters *)

Lemma quiet_time_time (env : Env) : quiet (time_time env).
Proof. unfold time_time. auto with engine. Qed.

Lemma quiet_utcnow_isoformat (env : Env) : quiet (utcnow_isoformat env).
Proof. unfold utcnow_isoformat. auto with engine. Qed.

Lemma quiet_perf_counter (env : Env) : quiet (perf_counter env).
Proof. unfold perf_counter. auto with engine. Qed.

Lemma quiet_random_random (env : Env) : quiet (random_random env).
Proof. unfold random_random. auto with engine. Qed.

Lemma quiet_random_uniform (env : Env) (a b : Q) : quiet (random_uniform env a b).
Proof. unfold random_uniform. auto using quiet_random_random with engine. Qed.

#[local] Hint Resolve quiet_time_time quiet_utcnow_isoformat quiet_perf_counter
  quiet_random_random quiet_random_uniform : engine.

Lemma quiet_run_stabilizer_checks (env : Env) (self : QECAnalysisEngine) (lsu : string)
    (representations : gmap string json) :
  quiet (_run_stabilizer_checks env self lsu representations).
Proof.
  unfold _run_stabilizer_checks. apply quiet_for_each. intros results stabilizer.
  cbv zeta. apply quiet_bind; [auto with engine|]. intros r.
  apply quiet_bind; [|auto with engine].
  destruct (_ =? 1)%Z; auto with engine.
Qed.

Lemma quiet_synthesize (env : Env) (self : QECAnalysisEngine) (lsu analysis_id : string)
    (representations : gmap string json) (results : list Stabilizer.t) :
  quiet (synthesize env self lsu analysis_id representations results).
Proof. unfold synthesize. cbv zeta. auto 10 with engine. Qed.

Lemma quiet_record_audit_entry (response : Response.t) :
  quiet (_record_audit_entry response).
Proof. unfold _record_audit_entry. cbv zeta. auto with engine. Qed.

#[local] Hint Resolve quiet_run_stabilizer_checks quiet_synthesize
  quiet_record_audit_entry : engine.

Lemma accounts_generate_representations (env : Env) (self : QECAnalysisEngine)
    (lsu : string) :
  truthy (nvidia_api_key self) = true ->
  accounts lsu (_generate_representations env self lsu).
Proof.
  intros Hkey w.
  destruct (generate_representations_with_key env self lsu w Hkey) as (w' & Hrun & Hacc).
  rewrite Hrun. exact Hacc.
Qed.

Lemma accounts_run_qec_analysis (env : Env) (self : QECAnalysisEngine)
    (lsu analysis_id : string) :
  truthy (nvidia_api_key self) = true ->
  accounts lsu (_run_qec_analysis env self lsu analysis_id).
Proof.
  intros Hkey. unfold _run_qec_analysis.
  apply accounts_bind_l; [apply accounts_generate_representations; exact Hkey|].
  intros representations. auto with engine.
Qed.

Lemma accounts_analyze (env : Env) (self : QECAnalysisEngine) (request : Request.t) :
  truthy (nvidia_api_key self) = true ->
  accounts (Request.lsu request) (analyze_governance_requirement env self request).
Proof.
  intros Hkey. unfold analyze_governance_requirement.
  apply accounts_bind_r; [auto with engine | | discriminate]. intros start_time.
  apply accounts_bind_r; [auto with engine | | discriminate]. intros now.
  cbv zeta. unfold analysis_duration_time.
  apply accounts_bind_r; [auto with engine | | discriminate]. intros t0.
  apply accounts_try_finally; [|auto with engine].
  apply accounts_bind_r; [auto with engine | | discriminate]. intros _.
  apply accounts_try_finally; [|auto with engine].
  apply accounts_try_except; [|auto with engine].
  unfold analyze_body.
  apply accounts_bind_l; [apply accounts_run_qec_analysis; exact Hkey|].
  intros qec_result. cbv zeta. auto 10 with engine.
Qed.




(** ** Running the pipeline *)

Lemma bind_inl_inv {A B} (m : M A) (k : A -> M B) (w w' : World) (b : B) :
  bind m k w = (inl b, w') ->
  exists a w1, m w = (inl a, w1) /\ k a w1 = (inl b, w').
Proof.
  unfold bind. destruct (m w) as [[a|e] w1]; intros H; [eauto | discriminate].
Qed.

Lemma try_finally_inl_inv {A} (body : M A) (cleanup : M unit) (w w' : World) (a : A) :
  try_finally body cleanup w = (inl a, w') -> exists w1, body w = (inl a, w1).
Proof.
  unfold try_finally. destruct (body w) as [r w1].
  destruct (cleanup w1) as [[u|e] w2]; intros H; [|discriminate].
  injection H as -> _. eauto.
Qed.

Lemma try_except_inl_inv {A} (body : M A) (handler : exn -> M A) (w w' : World) (a : A) :
  (forall e w1 b w2, handler e w1 = (inl b, w2) -> False) ->
  try_except body handler w = (inl a, w') -> body w = (inl a, w').
Proof.
  intros Hh. unfold try_except. destruct (body w) as [[b|e] w1]; intros H.
  - exact H.
  - exfalso. exact (Hh _ _ _ _ H).
Qed.

Lemma stabilizer_checks_run (env : Env) (self : QECAnalysisEngine) (lsu : string)
    (representations : gmap string json) (w : World) :
  exists results w',
    _run_stabilizer_checks env self lsu representations w = (inl results, w')
    /\ List.length results = List.length stabilizers
    /\ List.map Stabilizer.name results = List.map fst stabilizers
    /\ List.map Stabilizer.weight results = List.map snd stabilizers.
Proof.
  unfold _run_stabilizer_checks.
  assert (Hgen : forall (xs : list (string * Q)) (acc : list Stabilizer.t) (w0 : World),
            exists results w',
              for_each
                (fun results stabilizer =>
                   let success_probability := 0.8%Q in
                   r <- random_random env ;;
                   let outcome := if Qltb r success_probability then 1%Z else (-1)%Z in
                   confidence <- (if (outcome =? 1)%Z then random_uniform env 0.7 0.95
                                  else random_uniform env 0.3 0.6) ;;
                   ret (results ++
                        [ {| Stabilizer.name := fst stabilizer;
                             Stabilizer.outcome := outcome;
                             Stabilizer.confidence := confidence;
                             Stabilizer.weight := snd stabilizer;
                             Stabilizer.description :=
                               "Enhanced " +:+ replace_char "_" " " (fst stabilizer)
                               +:+ " check" |} ])%list)
                xs acc w0 = (inl results, w')
              /\ List.map Stabilizer.name results
                 = (List.map Stabilizer.name acc ++ List.map fst xs)%list
              /\ List.map Stabilizer.weight results
                 = (List.map Stabilizer.weight acc ++ List.map snd xs)%list).
  { induction xs as [|x rest IH]; intros acc w0.
    - exists acc, w0. simpl. rewrite !app_nil_r. auto.
    - cbn [for_each]. cbv zeta.
      unfold bind at 1. unfold bind at 1. unfold random_random at 1.
      unfold bind at 1. unfold draw at 1. unfold ret at 1.
      cbv beta iota.
      destruct (Qltb (random_at env (rng w0)) 0.8).
      all: cbv beta iota; change ((1 =? 1)%Z) with true; change ((-1 =? 1)%Z) with false.
      all: cbv beta iota; unfold random_uniform, random_random, bind, draw, ret.
      all: cbv beta iota.
      all: match goal with
           | |- context [for_each _ _ ?acc' ?w1] =>
               destruct (IH acc' w1) as (results & w' & Hrun & Hn & Hw)
           end.
      all: exists results, w'; split; [exact Hrun|].
      all: rewrite Hn, Hw, !map_app; simpl; rewrite <- !app_assoc; auto. }
  destruct (Hgen stabilizers [] w) as (results & w' & Hrun & Hn & Hw).
  exists results, w'. split; [exact Hrun|].
  split; [|split; [exact Hn | exact Hw]].
  rewrite <- (length_map Stabilizer.name results), Hn. reflexivity.
Qed.

Lemma generate_representations_total (env : Env) (self : QECAnalysisEngine)
    (lsu : string) (w : World) :
  exists representations w',
    _generate_representations env self lsu w = (inl representations, w').
Proof.
  destruct (truthy (nvidia_api_key self)) eqn:Hkey.
  - destruct (generate_representations_with_key env self lsu w Hkey) as (w' & Hrun & _).
    eauto.
  - rewrite (generate_representations_without_key env self lsu w Hkey). eauto.
Qed.

Lemma run_qec_analysis_total (env : Env) (self : QECAnalysisEngine)
    (lsu analysis_id : string) (w : World) :
  exists r w', _run_qec_analysis env self lsu analysis_id w = (inl r, w').
Proof.
  unfold _run_qec_analysis, bind.
  destruct (generate_representations_total env self lsu w) as (reps & w1 & Hgen).
  rewrite Hgen.
  destruct (stabilizer_checks_run env self lsu reps w1) as (results & w2 & Hchk & Hlen & _).
  rewrite Hchk.
  assert (Hne : results <> []) by (intros ->; discriminate).
  destruct (aggregate_nonempty results Hne) as (s & Hs & _).
  destruct (synthesize_ok env self lsu analysis_id reps results s w2 Hs)
    as (r & w3 & Hrun & _).
  eauto.
Qed.

Lemma analyze_body_total (env : Env) (self : QECAnalysisEngine) (request : Request.t)
    (start_time : Q) (analysis_id : string) (w : World) :
  exists response w',
    analyze_body env self request start_time analysis_id w = (inl response, w').
Proof.
  unfold analyze_body. unfold bind at 1.
  destruct (run_qec_analysis_total env self (Request.lsu request) analysis_id w)
    as (r & w1 & Hrun).
  rewrite Hrun. cbv zeta.
  unfold bind, time_time, utcnow_isoformat, tick, ret, set_coherence_score_gauge,
    _record_audit_entry, log, inc_analysis_requests_total, modify_metrics.
  cbv beta iota zeta. eauto.
Qed.

Lemma analyze_total (env : Env) (self : QECAnalysisEngine) (request : Request.t)
    (w : World) :
  exists response w',
    analyze_governance_requirement env self request w = (inl response, w').
Proof.
  cbv beta iota zeta delta
    [analyze_governance_requirement analysis_duration_time bind time_time perf_counter
     tick ret add_active_analyses modify_metrics try_finally try_except].
  match goal with
  | |- context [analyze_body env self request ?t ?id ?w0] =>
      destruct (analyze_body_total env self request t id w0) as (response & w1 & Hbody);
      rewrite Hbody
  end.
  cbv beta iota zeta delta [observe_analysis_duration modify_metrics]. eauto.
Qed.

Lemma analyze_body_inv (env : Env) (self : QECAnalysisEngine) (request : Request.t)
    (start_time : Q) (analysis_id : string) (w w' : World) (response : Response.t) :
  analyze_body env self request start_time analysis_id w = (inl response, w') ->
  Response.confidence_score response
  = Cert.coherence_score (certificate_of (Response.qec_result response))
  /\ Response.compliance_status response
     = _assess_compliance (Response.qec_result response)
  /\ Response.analysis_id response = analysis_id
  /\ Response.lsu_input response = Request.lsu request.
Proof.
  unfold analyze_body. intros H.
  apply bind_inl_inv in H as (r & w1 & _ & H).
  cbv zeta in H.
  unfold bind, time_time, utcnow_isoformat, tick, ret, set_coherence_score_gauge,
    _record_audit_entry, log, inc_analysis_requests_total, modify_metrics in H.
  cbv beta iota zeta in H.
  injection H as <- _. simpl. auto.
Qed.

Lemma analyze_inv (env : Env) (self : QECAnalysisEngine) (request : Request.t)
    (w w' : World) (response : Response.t) :
  analyze_governance_requirement env self request w = (inl response, w') ->
  exists start_time analysis_id w0 w1,
    analyze_body env self request start_time analysis_id w0 = (inl response, w1).
Proof.
  unfold analyze_governance_requirement, analysis_duration_time. intros H.
  apply bind_inl_inv in H as (start_time & wa & _ & H).
  apply bind_inl_inv in H as (now & wb & _ & H).
  cbv zeta in H.
  apply bind_inl_inv in H as (t0 & wc & _ & H).
  apply try_finally_inl_inv in H as (wd & H).
  apply bind_inl_inv in H as (u & we & _ & H).
  apply try_finally_inl_inv in H as (wf & H).
  apply try_except_inl_inv in H; [eauto|].
  intros e w1 b w2. unfold bind, log, inc_analysis_requests_total, modify_metrics, raise.
  discriminate.
Qed.

(** C10. In every successful analysis run the confidence score of the
    response is the coherence score of the certificate it carries, and the
    audit entry built from that response has the same value both as its
    [ai_confidence] and as the [coherence_score] of its metadata. *)
Theorem confidence_is_coherence_score (env : Env) (self : QECAnalysisEngine)
    (request : Request.t) (w w' : World) (response : Response.t) :
  analyze_governance_requirement env self request w = (inl response, w') ->
  let score := Cert.coherence_score (certificate_of (Response.qec_result response)) in
  Response.confidence_score response = score
  /\ Audit.ai_confidence (audit_entry response) = score
  /\ Audit.coherence_score (Audit.metadata (audit_entry response)) = score.
Proof.
  intros Hrun score.
  destruct (analyze_inv env self request w w' response Hrun)
    as (start_time & analysis_id & w0 & w1 & Hbody).
  destruct (analyze_body_inv _ _ _ _ _ _ _ _ Hbody) as (Hconf & _).
  unfold audit_entry. simpl. auto.
Qed.

Lemma confidence_is_coherence_score_witness :
  let env := sample_env (Some "nvapi-key") in
  exists response w',
    analyze_governance_requirement env (__init__ env) (sample_request "security")
      fresh_world = (inl response, w')
    /\ Response.confidence_score response
       = Cert.coherence_score (certificate_of (Response.qec_result response))
    /\ Audit.ai_confidence (audit_entry response)
       = Cert.coherence_score (certificate_of (Response.qec_result response)).
Proof.
  intros env.
  destruct (analyze_total env (__init__ env) (sample_request "security") fresh_world)
    as (response & w' & Hrun).
  exists response, w'. split; [exact Hrun|].
  destruct (confidence_is_coherence_score env (__init__ env) (sample_request "security")
              fresh_world w' response Hrun) as (Hconf & Haudit & _).
  split; [exact Hconf | exact Haudit].
Defined.

(** ** Policy generation *)

Lemma append_assoc (a b c : string) : (a +:+ b) +:+ c = a +:+ (b +:+ c).
Proof.
  induction a as [|x a IH]; [reflexivity|].
  change (String x ((a +:+ b) +:+ c) = String x (a +:+ (b +:+ c))).
  rewrite IH. reflexivity.
Qed.

(** C8, as stated, does not hold: an analysis type that is not an
    identifier reaches the package line of the policy as it is. *)
Lemma opa_policy_not_sanitized :
  package_name (_generate_opa_policy (result_with "COHERENT" 0.85) "full audit")
  = Some "acgs.qec.full audit"
  /\ ~ embeds_safe_identifier
        (_generate_opa_policy (result_with "COHERENT" 0.85) "full audit").
Proof.
  assert (Hname : package_name
                    (_generate_opa_policy (result_with "COHERENT" 0.85) "full audit")
                  = Some "acgs.qec.full audit") by (vm_compute; reflexivity).
  split; [exact Hname|].
  intros (id & Hid & Hpkg). rewrite Hname in Hpkg.
  injection Hpkg as Hpkg.
  assert (Heq : id = "full audit").
  { cbv [String.append] in Hpkg. congruence. }
  subst id. discriminate Hid.
Qed.

(** C8, amended. The Policy Generator is a total, pure function of the
    certificate and the analysis-type text: it fails on no text and calls
    nothing outside. It does not sanitize: for every analysis-type text the
    policy carries that text unchanged in its package line, in the body of
    the [allow] rule and in the head of the analysis-specific rule, and the
    rest of the policy does not depend on it. *)
Theorem opa_policy_embeds_analysis_type_verbatim (qec_result : Result.t) :
  exists head mid1 mid2 tail : string,
    forall analysis_type : string,
      _generate_opa_policy qec_result analysis_type
      = head +:+ "package acgs.qec." +:+ analysis_type
          +:+ mid1 +:+ "    " +:+ analysis_type +:+ "_specific_checks"
          +:+ mid2 +:+ analysis_type +:+ "_specific_checks if {"
          +:+ tail.
Proof.
  set (template := opa_policy_lines (certificate_of qec_result) "").
  exists (text (firstn 5 template) +:+ nl),
         (nl +:+ text (firstn 10 (skipn 6 template)) +:+ nl),
         (nl +:+ text (firstn 16 (skipn 17 template)) +:+ nl),
         (nl +:+ text (skipn 34 template)).
  intros analysis_type. subst template.
  unfold _generate_opa_policy.
  cbv beta iota zeta delta [opa_policy_lines firstn skipn text String.concat].
  rewrite !append_assoc. reflexivity.
Qed.

(** * Further properties of the engine *)

(** ** What the synthesizer puts in its result *)

Lemma synthesize_fields (env : Env) (self : QECAnalysisEngine) (lsu analysis_id : string)
    (representations : gmap string json) (results : list Stabilizer.t)
    (w w' : World) (r : Result.t) :
  synthesize env self lsu analysis_id representations results w = (inl r, w') ->
  exists s,
    aggregate results = inl s
    /\ Cert.coherence_score (certificate_of r) = s
    /\ Cert.status (certificate_of r) = status_of s
    /\ Cert.risk_assessment (certificate_of r) = risk_of s
    /\ Cert.syndrome_vector (certificate_of r) = List.map Stabilizer.outcome results
    /\ Cert.diagnosis_id (certificate_of r) = "diag-" +:+ analysis_id
    /\ Cert.lsu_id (certificate_of r) = analysis_id
    /\ Payload.artifact_id (Result.payload r) = "artifact-" +:+ analysis_id
    /\ Payload.lsu_id (Result.payload r) = analysis_id
    /\ Payload.artifact_type (Result.payload r)
       = (if String.eqb (status_of s) "COHERENT" then "rego_policy" else "safety_protocol")
    /\ Payload.artifact_body (Result.payload r) = _generate_artifact_body lsu (status_of s)
    /\ Payload.representations (Result.payload r) = representations
    /\ Signature.value (Result.signature r) = "sig-" +:+ analysis_id
    /\ Result.ai_provider_used r = _detect_ai_provider self.
Proof.
  unfold synthesize, bind, lift.
  destruct (aggregate results) as [s|e]; simpl; intros H; [|discriminate].
  injection H as Hr _. subst r. exists s. simpl. repeat split.
Qed.

Lemma status_of_cases (s : Q) :
  (status_of s = "COHERENT" /\ (0 < s)%Q) \/ (status_of s = "INCOHERENT" /\ (s <= 0)%Q).
Proof.
  unfold status_of. destruct (Qgtb s 0) eqn:E.
  - left. split; [reflexivity | apply Qgtb_spec; exact E].
  - right. split; [reflexivity|].
    apply Qnot_lt_le. intros H. apply Qgtb_spec in H. congruence.
Qed.

(** X1. The risk severity of a certificate is LOW when its score is above
    0.7, HIGH when it is below 0.3 and MEDIUM in between, both bounds
    belonging to MEDIUM; the mitigation strategy is the standard one
    exactly for LOW and manual review otherwise. *)
Theorem risk_severity_bands (env : Env) (self : QECAnalysisEngine)
    (lsu analysis_id : string) (representations : gmap string json)
    (results : list Stabilizer.t) (w w' : World) (r : Result.t) :
  synthesize env self lsu analysis_id representations results w = (inl r, w') ->
  let score := Cert.coherence_score (certificate_of r) in
  let risk := Cert.risk_assessment (certificate_of r) in
  (Risk.severity risk = "LOW" <-> (0.7 < score)%Q)
  /\ (Risk.severity risk = "HIGH" <-> (score < 0.3)%Q)
  /\ (Risk.severity risk = "MEDIUM" <-> (0.3 <= score)%Q /\ (score <= 0.7)%Q)
  /\ (Risk.mitigation_strategy risk = "Standard monitoring procedures"
      <-> Risk.severity risk = "LOW")
  /\ (Risk.mitigation_strategy risk = "Manual review required"
      <-> Risk.severity risk <> "LOW").
Proof.
  intros Hrun score risk.
  destruct (synthesize_fields _ _ _ _ _ _ _ _ _ Hrun) as (s & _ & Hs & _ & Hrisk & _).
  subst score risk. rewrite Hrisk, Hs. unfold risk_of. simpl.
  assert (Hgt : Qgtb s 0.7 = true \/ (Qgtb s 0.7 = false /\ (s <= 0.7)%Q)).
  { destruct (Qgtb s 0.7) eqn:E; [left; reflexivity | right; split; [reflexivity|]].
    apply Qnot_lt_le. intros H. apply Qgtb_spec in H. congruence. }
  assert (Hlt : Qltb s 0.3 = true \/ (Qltb s 0.3 = false /\ (0.3 <= s)%Q)).
  { destruct (Qltb s 0.3) eqn:E; [left; reflexivity | right; split; [reflexivity|]].
    apply Qnot_lt_le. intros H. apply Qltb_spec in H. congruence. }
  destruct Hgt as [Hgt|[Hgt Hhi]]; destruct Hlt as [Hlt|[Hlt Hlo]]; rewrite Hgt, ?Hlt;
    try (apply Qgtb_spec in Hgt); try (apply Qltb_spec in Hlt).
  all: repeat split; intros; try reflexivity; try discriminate; try congruence; try lra.
Qed.

Lemma risk_severity_bands_witness :
  exists r w',
    synthesize (sample_env None) (__init__ (sample_env None))
      "All deployments must pass security review." "qec-1-0001" ∅
      sample_results fresh_world = (inl r, w')
    /\ Risk.severity (Cert.risk_assessment (certificate_of r)) = "HIGH".
Proof.
  destruct (synthesize_ok (sample_env None) (__init__ (sample_env None))
              "All deployments must pass security review." "qec-1-0001" ∅
              sample_results _ fresh_world eq_refl) as (r & w' & Hrun & Hscore & _).
  exists r, w'. split; [exact Hrun|].
  apply (proj1 (proj2 (risk_severity_bands _ _ _ _ _ _ _ _ _ Hrun))).
  rewrite Hscore. vm_compute. reflexivity.
Defined.

(** ** Stabilizer checks *)

Lemma stabilizer_checks_exact (env : Env) (self : QECAnalysisEngine) (lsu : string)
    (representations : gmap string json) (w : World) :
  _run_stabilizer_checks env self lsu representations w
  = (inl (checks_from env (rng w) stabilizers),
     {| metrics := metrics w; logger := logger w; clock := clock w;
        rng := rng w + 2 * List.length stabilizers; http_posts := http_posts w |}).
Proof.
  unfold _run_stabilizer_checks.
  assert (Hgen : forall (xs : list (string * Q)) (acc : list Stabilizer.t) (w0 : World),
            for_each
              (fun results stabilizer =>
                 let success_probability := 0.8%Q in
                 r <- random_random env ;;
                 let outcome := if Qltb r success_probability then 1%Z else (-1)%Z in
                 confidence <- (if (outcome =? 1)%Z then random_uniform env 0.7 0.95
                                else random_uniform env 0.3 0.6) ;;
                 ret (results ++
                      [ {| Stabilizer.name := fst stabilizer;
                           Stabilizer.outcome := outcome;
                           Stabilizer.confidence := confidence;
                           Stabilizer.weight := snd stabilizer;
                           Stabilizer.description :=
                             "Enhanced " +:+ replace_char "_" " " (fst stabilizer)
                             +:+ " check" |} ])%list)
              xs acc w0
            = (inl (acc ++ checks_from env (rng w0) xs)%list,
               {| metrics := metrics w0; logger := logger w0; clock := clock w0;
                  rng := rng w0 + 2 * List.length xs; http_posts := http_posts w0 |})).
  { induction xs as [|x rest IH]; intros acc w0.
    - simpl. unfold ret. rewrite app_nil_r, Nat.add_0_r. destruct w0; reflexivity.
    - cbn [for_each checks_from]. cbv zeta.
      unfold bind at 1. unfold bind at 1. unfold random_random at 1.
      unfold bind at 1. unfold draw at 1. unfold ret at 1.
      cbv beta iota. unfold check_at.
      destruct (Qltb (random_at env (rng w0)) 0.8).
      all: cbv beta iota zeta; change ((1 =? 1)%Z) with true;
        change ((-1 =? 1)%Z) with false.
      all: cbv beta iota; unfold random_uniform, random_random, bind, draw, ret.
      all: cbv beta iota.
      all: rewrite IH; cbn [rng metrics logger clock http_posts List.length].
      all: rewrite <- app_assoc; cbn [app].
      all: f_equal; f_equal; lia. }
  rewrite Hgen. reflexivity.
Qed.

Lemma checks_from_length (env : Env) (xs : list (string * Q)) :
  forall n, List.length (checks_from env n xs) = List.length xs.
Proof. induction xs as [|x rest IH]; intros n; simpl; [reflexivity | rewrite IH; reflexivity]. Qed.

Lemma checks_from_names (env : Env) (xs : list (string * Q)) :
  forall n, List.map Stabilizer.name (checks_from env n xs) = List.map fst xs
            /\ List.map Stabilizer.weight (checks_from env n xs) = List.map snd xs.
Proof.
  induction xs as [|x rest IH]; intros n; simpl; [auto|].
  destruct (IH (S (S n))) as [Hn Hw]. rewrite Hn, Hw. auto.
Qed.

Lemma check_at_outcome (env : Env) (n : nat) (x : string * Q) :
  (Stabilizer.outcome (check_at env n x) = 1%Z /\ (random_at env n < 0.8)%Q)
  \/ (Stabilizer.outcome (check_at env n x) = (-1)%Z /\ (0.8 <= random_at env n)%Q).
Proof.
  unfold check_at. simpl. destruct (Qltb (random_at env n) 0.8) eqn:E.
  - left. split; [reflexivity | apply Qltb_spec; exact E].
  - right. split; [reflexivity|]. apply Qnot_lt_le. intros H.
    apply Qltb_spec in H. congruence.
Qed.

Lemma check_at_confidence (env : Env) (n : nat) (x : string * Q) :
  unit_random env -> confidence_in_range (check_at env n x).
Proof.
  intros Hu. destruct (Hu (S n)) as [H0 H1].
  unfold confidence_in_range, check_at. simpl.
  destruct (Qltb (random_at env n) 0.8); simpl; [left | right].
  all: split; [reflexivity|]; split; lra.
Qed.

Lemma checks_from_Forall (env : Env) (P : Stabilizer.t -> Prop) (xs : list (string * Q)) :
  (forall n x, P (check_at env n x)) ->
  forall n, List.Forall P (checks_from env n xs).
Proof.
  intros HP. induction xs as [|x rest IH]; intros n; simpl; constructor; auto.
Qed.

(** X2. The stabilizer check runner never fails and returns one result per
    configured stabilizer, five in all, with the names and weights of the
    configuration in its order; every outcome is 1 or -1; the runner draws
    exactly two random numbers per stabilizer and touches nothing else of
    the world. *)
Theorem stabilizer_checks_shape (env : Env) (self : QECAnalysisEngine) (lsu : string)
    (representations : gmap string json) (w : World) :
  exists results w',
    _run_stabilizer_checks env self lsu representations w = (inl results, w')
    /\ List.length results = 5%nat
    /\ List.map Stabilizer.name results
       = [ "syntax_validation"; "semantic_consistency"; "security_analysis";
           "performance_check"; "compliance_audit" ]
    /\ List.map Stabilizer.weight results = [ 0.8; 1.0; 0.9; 0.7; 0.95 ]%Q
    /\ List.Forall (fun r => Stabilizer.outcome r = 1%Z \/ Stabilizer.outcome r = (-1)%Z)
         results
    /\ rng w' = (rng w + 10)%nat
    /\ metrics w' = metrics w /\ logger w' = logger w /\ clock w' = clock w
    /\ http_posts w' = http_posts w.
Proof.
  eexists; eexists. split; [apply stabilizer_checks_exact|].
  split; [apply checks_from_length|].
  split; [apply (checks_from_names env stabilizers)|].
  split; [apply (checks_from_names env stabilizers)|].
  split; [|simpl; repeat split].
  apply checks_from_Forall. intros n x.
  destruct (check_at_outcome env n x) as [[H _]|[H _]]; auto.
Qed.

(** X3. When the random source answers in [0, 1), each stabilizer result
    has outcome 1 exactly when its first draw is below 0.8, and its
    confidence lies between 0.7 and 0.95 for outcome 1 and between 0.3 and
    0.6 for outcome -1, the ends included. *)
Theorem stabilizer_confidence_ranges (env : Env) (self : QECAnalysisEngine)
    (lsu : string) (representations : gmap string json) (w : World) :
  unit_random env ->
  exists results w',
    _run_stabilizer_checks env self lsu representations w = (inl results, w')
    /\ List.Forall confidence_in_closed_range results
    /\ forall (i : nat) (r : Stabilizer.t),
         results !! i = Some r ->
         (Stabilizer.outcome r = 1%Z <-> (random_at env (rng w + 2 * i) < 0.8)%Q).
Proof.
  intros Hu. eexists; eexists. split; [apply stabilizer_checks_exact|].
  split.
  { apply checks_from_Forall. intros n x.
    destruct (check_at_confidence env n x Hu) as [(Ho & Hlo & Hhi)|(Ho & Hlo & Hhi)];
      [left | right]; (split; [exact Ho|]; split; [exact Hlo | apply Qlt_le_weak; exact Hhi]). }
  generalize (rng w) as n. generalize stabilizers as xs.
  induction xs as [|x rest IH]; intros n i r Hi; [destruct i; discriminate|].
  destruct i as [|i]; simpl in Hi.
  - injection Hi as <-. rewrite Nat.mul_0_r, Nat.add_0_r.
    destruct (check_at_outcome env n x) as [[Ho Hr]|[Ho Hr]]; rewrite Ho.
    + split; auto.
    + split; [discriminate | intros Hlt; lra].
  - rewrite (IH (S (S n)) i r Hi).
    replace (S (S n) + 2 * i)%nat with (n + 2 * S i)%nat by lia. reflexivity.
Qed.

Lemma sample_env_unit_random (key : option string) : unit_random (sample_env key).
Proof.
  intros n. simpl. destruct (Nat.even n); split; vm_compute; congruence.
Qed.

Lemma stabilizer_confidence_ranges_witness :
  unit_random (sample_env None)
  /\ exists results w',
       _run_stabilizer_checks (sample_env None) (__init__ (sample_env None))
         "All deployments must pass security review." ∅ fresh_world = (inl results, w')
       /\ List.Forall confidence_in_closed_range results.
Proof.
  split; [apply sample_env_unit_random|].
  destruct (stabilizer_confidence_ranges (sample_env None) (__init__ (sample_env None))
              "All deployments must pass security review." ∅ fresh_world
              (sample_env_unit_random None)) as (results & w' & Hrun & Hall & _).
  exists results, w'. split; [exact Hrun | exact Hall].
Defined.

(** ** Bounds on the coherence score *)

Lemma score_sum_bounds (lo hi : Q) (results : list Stabilizer.t) :
  List.Forall (fun r =>
     (lo <= inject_Z (Stabilizer.outcome r) * Stabilizer.confidence r)%Q
     /\ (inject_Z (Stabilizer.outcome r) * Stabilizer.confidence r <= hi)%Q) results ->
  (lo * inject_Z (Z.of_nat (List.length results)) <= score_sum results)%Q
  /\ (score_sum results <= hi * inject_Z (Z.of_nat (List.length results)))%Q.
Proof.
  induction 1 as [|r rest [Hlo Hhi] _ [IHlo IHhi]].
  - cbn [List.length score_sum]. change (inject_Z (Z.of_nat 0)) with 0%Q. split; lra.
  - cbn [List.length score_sum]. rewrite Nat2Z.inj_succ, <- Z.add_1_r, inject_Z_plus.
    change (inject_Z 1) with 1%Q.
    set (n := inject_Z (Z.of_nat (List.length rest))) in *.
    rewrite !Qmult_plus_distr_r, !Qmult_1_r.
    set (a := (lo * n)%Q) in *. set (b := (hi * n)%Q) in *.
    split; lra.
Qed.

(** ** Parts of the world a computation leaves alone *)

Lemma keeps_ret {A B} (part : World -> B) (a : A) : keeps part (ret a).
Proof. intros w. reflexivity. Qed.

Lemma keeps_raise {A B} (part : World -> B) (e : exn) : keeps part (@raise A e).
Proof. intros w. reflexivity. Qed.

Lemma keeps_lift {A B} (part : World -> B) (r : A + exn) : keeps part (lift r).
Proof. intros w. reflexivity. Qed.

Lemma keeps_bind {A A' B} (part : World -> B) (m : M A) (k : A -> M A') :
  keeps part m -> (forall a, keeps part (k a)) -> keeps part (bind m k).
Proof.
  intros Hm Hk w. unfold bind. specialize (Hm w).
  destruct (m w) as [[a|e] w1]; simpl in *; [rewrite Hk|]; exact Hm.
Qed.

Lemma keeps_try_except {A B} (part : World -> B) (body : M A) (handler : exn -> M A) :
  keeps part body -> (forall e, keeps part (handler e)) ->
  keeps part (try_except body handler).
Proof.
  intros Hb Hh w. unfold try_except. specialize (Hb w).
  destruct (body w) as [[a|e] w1]; simpl in *; [|rewrite Hh]; exact Hb.
Qed.

Lemma keeps_for_each {A X B} (part : World -> B) (body : A -> X -> M A) (xs : list X) :
  (forall acc x, keeps part (body acc x)) -> forall acc, keeps part (for_each body xs acc).
Proof.
  intros Hbody. induction xs as [|x rest IH]; intros acc; simpl.
  - apply keeps_ret.
  - apply keeps_bind; [apply Hbody | exact IH].
Qed.

Lemma keeps_generate_representations {B} (part : World -> B) (env : Env)
    (self : QECAnalysisEngine) (lsu : string) :
  generation_frame part -> keeps part (_generate_representations env self lsu).
Proof.
  intros (Hpost & Hinc & Hlog).
  assert (Hone : forall reps item, keeps part (generate_one env lsu reps item)).
  { intros reps [filename prompt]. unfold generate_one.
    apply keeps_try_except.
    - apply keeps_bind; [apply Hpost|]. intros n.
      apply keeps_bind; [apply keeps_lift|]. intros content. cbv zeta.
      apply keeps_bind; [apply Hinc | intros _; apply keeps_ret].
    - intros e. apply keeps_bind; [apply Hlog|]. intros _. cbv zeta.
      apply keeps_bind; [apply Hinc | intros _; apply keeps_ret]. }
  unfold _generate_representations.
  destruct (truthy (nvidia_api_key self)); [|apply keeps_ret].
  apply keeps_try_except.
  - unfold _ai_generate_representations.
    apply keeps_bind; [apply Hinc|]. intros _. apply keeps_for_each. exact Hone.
  - intros e. apply keeps_bind; [apply Hlog | intros _; apply keeps_ret].
Qed.

Lemma keeps_synthesize {B} (part : World -> B) (env : Env) (self : QECAnalysisEngine)
    (lsu analysis_id : string) (representations : gmap string json)
    (results : list Stabilizer.t) :
  keeps part tick ->
  keeps part (synthesize env self lsu analysis_id representations results).
Proof.
  intros Htick.
  assert (Hnow : keeps part (utcnow_isoformat env)).
  { unfold utcnow_isoformat. apply keeps_bind; [exact Htick | intros n; apply keeps_ret]. }
  unfold synthesize. apply keeps_bind; [apply keeps_lift|]. intros s.
  apply keeps_bind; [exact Hnow|]. intros t1. cbv zeta.
  apply keeps_bind; [exact Hnow|]. intros t2.
  apply keeps_bind; [exact Hnow|]. intros t3. apply keeps_ret.
Qed.

Lemma keeps_stabilizer_checks {B} (part : World -> B) (env : Env)
    (self : QECAnalysisEngine) (lsu : string) (representations : gmap string json) :
  keeps part draw ->
  keeps part (_run_stabilizer_checks env self lsu representations).
Proof.
  intros Hdraw.
  assert (Hrand : keeps part (random_random env)).
  { unfold random_random. apply keeps_bind; [exact Hdraw | intros n; apply keeps_ret]. }
  assert (Huni : forall a b, keeps part (random_uniform env a b)).
  { intros a b. unfold random_uniform.
    apply keeps_bind; [exact Hrand | intros u; apply keeps_ret]. }
  unfold _run_stabilizer_checks. apply keeps_for_each. intros results stabilizer.
  cbv zeta. apply keeps_bind; [exact Hrand|]. intros r.
  apply keeps_bind; [destruct (_ =? 1)%Z; apply Huni | intros c; apply keeps_ret].
Qed.

Lemma keeps_run_qec_analysis {B} (part : World -> B) (env : Env)
    (self : QECAnalysisEngine) (lsu analysis_id : string) :
  pipeline_frame part -> keeps part (_run_qec_analysis env self lsu analysis_id).
Proof.
  intros (Hgen & Htick & Hdraw). unfold _run_qec_analysis.
  apply keeps_bind; [apply keeps_generate_representations; exact Hgen|]. intros reps.
  apply keeps_bind; [apply keeps_stabilizer_checks; exact Hdraw|]. intros results.
  apply keeps_synthesize. exact Htick.
Qed.

Lemma generation_frame_rng : generation_frame rng.
Proof. repeat split. Qed.

Lemma pipeline_frame_in_flight_gauge : pipeline_frame in_flight_gauge.
Proof. repeat split. Qed.

Lemma pipeline_frame_request_counter : pipeline_frame request_counter.
Proof. repeat split. Qed.

Lemma pipeline_frame_score_gauge : pipeline_frame score_gauge.
Proof. repeat split. Qed.

Lemma pipeline_frame_durations :
  pipeline_frame (fun w => analysis_duration (metrics w)).
Proof. repeat split. Qed.

(** ** The frame around the [try] block *)

Lemma analyze_unfold (env : Env) (self : QECAnalysisEngine) (request : Request.t)
    (w : World) :
  analyze_governance_requirement env self request w
  = in_flight env (Request.analysis_type request)
      (analysis_id_of env (time_at env (S (clock w))) (Request.lsu request))
      (analyze_body env self request (time_at env (clock w))
         (analysis_id_of env (time_at env (S (clock w))) (Request.lsu request)))
      {| metrics := metrics w; logger := logger w; clock := S (S (clock w));
         rng := rng w; http_posts := http_posts w |}.
Proof. reflexivity. Qed.

Lemma entered_gauge (w : World) : in_flight_gauge (entered w) = (in_flight_gauge w + 1)%Z.
Proof. reflexivity. Qed.

Lemma in_flight_success (env : Env) (analysis_type analysis_id : string)
    (body : M Response.t) (w w2 : World) (response : Response.t) :
  body (entered w) = (inl response, w2) ->
  exists w3,
    in_flight env analysis_type analysis_id body w = (inl response, w3)
    /\ in_flight_gauge w3 = (in_flight_gauge w2 - 1)%Z
    /\ request_counter w3 = request_counter w2
    /\ score_gauge w3 = score_gauge w2
    /\ provider_view w3 = provider_view w2
    /\ logger w3 = logger w2
    /\ rng w3 = rng w2
    /\ exists d, analysis_duration (metrics w3)
                 = (analysis_duration (metrics w2) ++ [d])%list /\ (0 <= d)%Q.
Proof.
  intros H. unfold entered in H.
  cbv beta iota zeta delta [bind tick add_active_analyses modify_metrics snd] in H.
  unfold in_flight, analysis_duration_time.
  cbv beta iota zeta delta
    [bind perf_counter tick ret add_active_analyses modify_metrics try_finally
     try_except observe_analysis_duration].
  rewrite H. cbv beta iota.
  eexists. split; [reflexivity|]. simpl.
  repeat split; try reflexivity.
  eexists. split; [reflexivity|].
  destruct (Qltb _ 0) eqn:E; [apply Qle_refl|].
  apply Qnot_lt_le. intros Hlt. apply Qltb_spec in Hlt. congruence.
Qed.

Lemma in_flight_failure (env : Env) (analysis_type analysis_id : string)
    (body : M Response.t) (w w2 : World) (e : exn) :
  body (entered w) = (inr e, w2) ->
  exists w3,
    in_flight env analysis_type analysis_id body w
    = (inr (HTTPException 500 ("Analysis failed: " +:+ str_exn e)), w3)
    /\ in_flight_gauge w3 = (in_flight_gauge w2 - 1)%Z
    /\ request_counter w3 = inc_label (analysis_type, "error") (request_counter w2)
    /\ logger w3
       = (logger w2 ++ [ ("ERROR", "Analysis failed for " +:+ analysis_id +:+ ": "
                                    +:+ str_exn e) ])%list
    /\ score_gauge w3 = score_gauge w2
    /\ provider_view w3 = provider_view w2.
Proof.
  intros H. unfold entered in H.
  cbv beta iota zeta delta [bind tick add_active_analyses modify_metrics snd] in H.
  unfold in_flight, analysis_duration_time.
  cbv beta iota zeta delta
    [bind perf_counter tick ret add_active_analyses modify_metrics try_finally
     try_except observe_analysis_duration log inc_analysis_requests_total raise].
  rewrite H. cbv beta iota.
  eexists. split; [reflexivity|]. simpl.
  repeat split; try reflexivity.
Qed.

(** ** What a run of the pipeline went through *)

Lemma run_qec_analysis_inv (env : Env) (self : QECAnalysisEngine)
    (lsu analysis_id : string) (w w' : World) (r : Result.t) :
  _run_qec_analysis env self lsu analysis_id w = (inl r, w') ->
  exists representations w1 w2,
    _generate_representations env self lsu w = (inl representations, w1)
    /\ synthesize env self lsu analysis_id representations
         (checks_from env (rng w) stabilizers) w2 = (inl r, w').
Proof.
  unfold _run_qec_analysis. intros H.
  apply bind_inl_inv in H as (reps & w1 & Hgen & H).
  apply bind_inl_inv in H as (results & w2 & Hchk & H).
  rewrite stabilizer_checks_exact in Hchk. injection Hchk as <- _.
  pose proof (keeps_generate_representations rng env self lsu generation_frame_rng w)
    as Hrng.
  rewrite Hgen in Hrng. simpl in Hrng. rewrite Hrng in H. eauto.
Qed.

Lemma analyze_body_fields (env : Env) (self : QECAnalysisEngine) (request : Request.t)
    (start_time : Q) (analysis_id : string) (w w' : World) (response : Response.t) :
  analyze_body env self request start_time analysis_id w = (inl response, w') ->
  exists w1,
    _run_qec_analysis env self (Request.lsu request) analysis_id w
    = (inl (Response.qec_result response), w1)
    /\ Response.analysis_id response = analysis_id
    /\ Response.audit_trail_id response = "audit-" +:+ analysis_id
    /\ Response.lsu_input response = Request.lsu request
    /\ Response.opa_policy response
       = (if String.eqb (Request.integration_mode request) "opa"
          then Some (_generate_opa_policy (Response.qec_result response)
                       (Request.analysis_type request))
          else None)
    /\ Response.compliance_status response
       = _assess_compliance (Response.qec_result response)
    /\ Response.recommendations response
       = _generate_recommendations (Response.qec_result response)
           (Request.analysis_type request)
    /\ Response.ai_provider_used response
       = Result.ai_provider_used (Response.qec_result response)
    /\ Response.confidence_score response
       = Cert.coherence_score (certificate_of (Response.qec_result response))
    /\ request_counter w'
       = inc_label (Request.analysis_type request, "success") (request_counter w1)
    /\ score_gauge w'
       = <[analysis_id := Response.confidence_score response]> (score_gauge w1)
    /\ in_flight_gauge w' = in_flight_gauge w1
    /\ provider_view w' = provider_view w1
    /\ analysis_duration (metrics w') = analysis_duration (metrics w1)
    /\ logger w'
       = (logger w1 ++ [ ("INFO", "Audit entry recorded: " +:+ analysis_id) ])%list.
Proof.
  unfold analyze_body. intros H.
  apply bind_inl_inv in H as (r & w1 & Hrun & H).
  cbv zeta in H.
  cbv beta iota zeta delta
    [bind time_time utcnow_isoformat tick ret set_coherence_score_gauge
     _record_audit_entry log inc_analysis_requests_total modify_metrics] in H.
  injection H as <- <-. exists w1. split; [exact Hrun|]. simpl.
  repeat split.
Qed.

Lemma analyze_run (env : Env) (self : QECAnalysisEngine) (request : Request.t)
    (w w' : World) (response : Response.t) :
  analyze_governance_requirement env self request w = (inl response, w') ->
  exists w0 w1,
    analyze_body env self request (time_at env (clock w))
      (analysis_id_of env (time_at env (S (clock w))) (Request.lsu request))
      (entered w0) = (inl response, w1)
    /\ provider_view w0 = provider_view w /\ rng w0 = rng w
    /\ in_flight_gauge w0 = in_flight_gauge w
    /\ request_counter w0 = request_counter w /\ score_gauge w0 = score_gauge w
    /\ analysis_duration (metrics w0) = analysis_duration (metrics w)
    /\ in_flight_gauge w' = (in_flight_gauge w1 - 1)%Z
    /\ request_counter w' = request_counter w1
    /\ score_gauge w' = score_gauge w1
    /\ provider_view w' = provider_view w1
    /\ exists d, analysis_duration (metrics w')
                 = (analysis_duration (metrics w1) ++ [d])%list /\ (0 <= d)%Q.
Proof.
  rewrite analyze_unfold. intros H.
  set (w0 := {| metrics := metrics w; logger := logger w; clock := S (S (clock w));
                rng := rng w; http_posts := http_posts w |}) in *.
  set (id := analysis_id_of env (time_at env (S (clock w))) (Request.lsu request)) in *.
  set (body := analyze_body env self request (time_at env (clock w)) id) in *.
  destruct (body (entered w0)) as [[resp|e] w1] eqn:Hbody.
  - destruct (in_flight_success env (Request.analysis_type request) id body w0 w1 resp Hbody)
      as (w3 & Hrun & Hg & Hc & Hs & Hp & _ & _ & Hd).
    rewrite Hrun in H. injection H as Hr Hw. subst response w'.
    exists w0, w1. split; [exact Hbody|]. repeat split; try reflexivity; assumption.
  - destruct (in_flight_failure env (Request.analysis_type request) id body w0 w1 e Hbody)
      as (w3 & Hrun & _).
    rewrite Hrun in H. discriminate.
Qed.

(** ** The score of a pipeline run *)

Lemma mean_between (lo hi : Q) (results : list Stabilizer.t) :
  results <> [] ->
  List.Forall (fun r =>
     (lo <= inject_Z (Stabilizer.outcome r) * Stabilizer.confidence r)%Q
     /\ (inject_Z (Stabilizer.outcome r) * Stabilizer.confidence r <= hi)%Q) results ->
  (lo <= unweighted_mean results)%Q /\ (unweighted_mean results <= hi)%Q.
Proof.
  intros Hne Hall. unfold unweighted_mean.
  destruct (score_sum_bounds lo hi results Hall) as [Hlo Hhi].
  assert (Hpos : (0 < inject_Z (Z.of_nat (List.length results)))%Q).
  { destruct results; [congruence|]. unfold Qlt. simpl. lia. }
  split; [apply Qle_shift_div_l | apply Qle_shift_div_r]; assumption.
Qed.

Lemma stabilizers_checked_nonempty (env : Env) (n : nat) :
  checks_from env n stabilizers <> [].
Proof. discriminate. Qed.

Lemma analyze_synthesis (env : Env) (self : QECAnalysisEngine) (request : Request.t)
    (w w' : World) (response : Response.t) :
  analyze_governance_requirement env self request w = (inl response, w') ->
  exists representations wa wb wc,
    _generate_representations env self (Request.lsu request)
      (entered {| metrics := metrics w; logger := logger w; clock := S (S (clock w));
                  rng := rng w; http_posts := http_posts w |})
    = (inl representations, wa)
    /\ synthesize env self (Request.lsu request) (Response.analysis_id response)
         representations (checks_from env (rng w) stabilizers) wb
       = (inl (Response.qec_result response), wc)
    /\ Response.confidence_score response
       = Cert.coherence_score (certificate_of (Response.qec_result response)).
Proof.
  intros Hrun. rewrite analyze_unfold in Hrun.
  set (w0 := {| metrics := metrics w; logger := logger w; clock := S (S (clock w));
                rng := rng w; http_posts := http_posts w |}) in *.
  set (id := analysis_id_of env (time_at env (S (clock w))) (Request.lsu request)) in *.
  set (body := analyze_body env self request (time_at env (clock w)) id) in *.
  destruct (body (entered w0)) as [[resp|e] w1] eqn:Hbody.
  - destruct (in_flight_success env (Request.analysis_type request) id body w0 w1 resp Hbody)
      as (w3 & Hin & _).
    rewrite Hin in Hrun. injection Hrun as Hr Hw. subst response w'.
    subst body. destruct (analyze_body_fields _ _ _ _ _ _ _ _ Hbody)
      as (w2 & Hq & Hid & _ & _ & _ & _ & _ & _ & Hconf & _).
    destruct (run_qec_analysis_inv _ _ _ _ _ _ _ Hq) as (reps & wa & wb & Hgen & Hsyn).
    rewrite Hid. exists reps, wa, wb, w2. split; [exact Hgen|].
    split; [exact Hsyn | exact Hconf].
  - destruct (in_flight_failure env (Request.analysis_type request) id body w0 w1 e Hbody)
      as (w3 & Hin & _).
    rewrite Hin in Hrun. discriminate.
Qed.

Lemma check_at_product (env : Env) (n : nat) (x : string * Q) :
  unit_random env ->
  let r := check_at env n x in
  (Stabilizer.outcome r = 1%Z
   /\ (0.7 <= inject_Z (Stabilizer.outcome r) * Stabilizer.confidence r)%Q
   /\ (inject_Z (Stabilizer.outcome r) * Stabilizer.confidence r <= 0.95)%Q)
  \/ (Stabilizer.outcome r = (-1)%Z
      /\ (-0.6 <= inject_Z (Stabilizer.outcome r) * Stabilizer.confidence r)%Q
      /\ (inject_Z (Stabilizer.outcome r) * Stabilizer.confidence r <= -0.3)%Q).
Proof.
  intros Hu r. subst r.
  destruct (check_at_confidence env n x Hu) as [(Ho & Hlo & Hhi)|(Ho & Hlo & Hhi)].
  - left. split; [exact Ho|]. rewrite Ho. change (inject_Z 1) with 1%Q. split; lra.
  - right. split; [exact Ho|]. rewrite Ho. change (inject_Z (-1)) with (-1)%Q. split; lra.
Qed.

(** X5. When the random source answers in [0, 1), the confidence score of
    every response lies between -0.6 and 0.95. *)
Theorem pipeline_score_range (env : Env) (self : QECAnalysisEngine)
    (request : Request.t) (w w' : World) (response : Response.t) :
  unit_random env ->
  analyze_governance_requirement env self request w = (inl response, w') ->
  (-0.6 <= Response.confidence_score response)%Q
  /\ (Response.confidence_score response <= 0.95)%Q.
Proof.
  intros Hu Hrun.
  destruct (analyze_synthesis _ _ _ _ _ _ Hrun) as (reps & wa & wb & wc & _ & Hsyn & Hconf).
  destruct (synthesize_fields _ _ _ _ _ _ _ _ _ Hsyn) as (s & Hagg & Hs & _).
  rewrite Hconf, Hs.
  destruct (aggregate_nonempty _ (stabilizers_checked_nonempty env (rng w)))
    as (s' & Hagg' & Hmean).
  rewrite Hagg in Hagg'. injection Hagg' as <-. rewrite Hmean.
  apply mean_between; [apply stabilizers_checked_nonempty|].
  apply checks_from_Forall. intros n x.
  destruct (check_at_product env n x Hu) as [(_ & Hlo & Hhi)|(_ & Hlo & Hhi)]; split; lra.
Qed.

Lemma pipeline_score_range_witness :
  exists response w',
    analyze_governance_requirement (sample_env None) (__init__ (sample_env None))
      (sample_request "security") fresh_world = (inl response, w')
    /\ (-0.6 <= Response.confidence_score response)%Q
    /\ (Response.confidence_score response <= 0.95)%Q.
Proof.
  destruct (analyze_total (sample_env None) (__init__ (sample_env None))
              (sample_request "security") fresh_world) as (response & w' & Hrun).
  exists response, w'. split; [exact Hrun|].
  exact (pipeline_score_range _ _ _ _ _ _ (sample_env_unit_random None) Hrun).
Defined.

Lemma Forall_map_outcome (P : Z -> Prop) (results : list Stabilizer.t) :
  List.Forall P (List.map Stabilizer.outcome results) ->
  List.Forall (fun r => P (Stabilizer.outcome r)) results.
Proof.
  induction results as [|r rest IH]; simpl; intros H; [constructor|].
  inversion H; subst. constructor; auto.
Qed.

Lemma Forall_both {A} (P Q R : A -> Prop) (l : list A) :
  (forall x, P x -> Q x -> R x) -> List.Forall P l -> List.Forall Q l -> List.Forall R l.
Proof.
  intros HPQ HP. induction HP as [|x l Hx _ IH]; intros HQ; [constructor|].
  inversion HQ; subst. constructor; auto.
Qed.

(** X6. The syndrome vector of a response has one entry per configured
    stabilizer, five in all, each 1 or -1. When the random source answers
    in [0, 1): if every entry is 1 the certificate is COHERENT with a score of
    at least 0.7, and if every entry is -1 it is INCOHERENT with a score of
    at most -0.3. *)
Theorem syndrome_vector_and_status (env : Env) (self : QECAnalysisEngine)
    (request : Request.t) (w w' : World) (response : Response.t) :
  analyze_governance_requirement env self request w = (inl response, w') ->
  let certificate := certificate_of (Response.qec_result response) in
  List.length (Cert.syndrome_vector certificate) = 5%nat
  /\ List.Forall (fun o => o = 1%Z \/ o = (-1)%Z) (Cert.syndrome_vector certificate)
  /\ (unit_random env ->
      (List.Forall (fun o => o = 1%Z) (Cert.syndrome_vector certificate) ->
       Cert.status certificate = "COHERENT"
       /\ (0.7 <= Cert.coherence_score certificate)%Q)
      /\ (List.Forall (fun o => o = (-1)%Z) (Cert.syndrome_vector certificate) ->
          Cert.status certificate = "INCOHERENT"
          /\ (Cert.coherence_score certificate <= -0.3)%Q)).
Proof.
  intros Hrun certificate. subst certificate.
  destruct (analyze_synthesis _ _ _ _ _ _ Hrun) as (reps & wa & wb & wc & _ & Hsyn & _).
  destruct (synthesize_fields _ _ _ _ _ _ _ _ _ Hsyn)
    as (s & Hagg & Hs & Hst & _ & Hvec & _).
  rewrite Hvec, Hs, Hst.
  split; [rewrite length_map; apply checks_from_length|].
  split.
  { apply Forall_map. apply checks_from_Forall. intros n x.
    destruct (check_at_outcome env n x) as [[H _]|[H _]]; auto. }
  intros Hu.
  destruct (aggregate_nonempty _ (stabilizers_checked_nonempty env (rng w)))
    as (s' & Hagg' & Hmean).
  rewrite Hagg in Hagg'. injection Hagg' as <-.
  assert (Hprod : List.Forall
            (fun r => let p := (inject_Z (Stabilizer.outcome r) * Stabilizer.confidence r)%Q in
                      (Stabilizer.outcome r = 1%Z /\ (0.7 <= p)%Q /\ (p <= 0.95)%Q)
                      \/ (Stabilizer.outcome r = (-1)%Z /\ (-0.6 <= p)%Q /\ (p <= -0.3)%Q))
            (checks_from env (rng w) stabilizers)).
  { apply checks_from_Forall. intros n x. apply check_at_product. exact Hu. }
  split; intros Hall; apply Forall_map_outcome in Hall.
  - assert (Hb : (0.7 <= unweighted_mean (checks_from env (rng w) stabilizers))%Q
                 /\ (unweighted_mean (checks_from env (rng w) stabilizers) <= 0.95)%Q).
    { apply mean_between; [apply stabilizers_checked_nonempty|].
      revert Hall Hprod. apply Forall_both. cbv zeta.
      intros r Ho [(_ & Hlo & Hhi)|(Hn & _)]; [split; assumption|].
      rewrite Ho in Hn. discriminate. }
    split; [|rewrite Hmean; tauto].
    apply status_of_coherent. rewrite Hmean. lra.
  - assert (Hb : (-0.6 <= unweighted_mean (checks_from env (rng w) stabilizers))%Q
                 /\ (unweighted_mean (checks_from env (rng w) stabilizers) <= -0.3)%Q).
    { apply mean_between; [apply stabilizers_checked_nonempty|].
      revert Hall Hprod. apply Forall_both. cbv zeta.
      intros r Ho [(Hn & _)|(_ & Hlo & Hhi)]; [|split; assumption].
      rewrite Ho in Hn. discriminate. }
    split; [|rewrite Hmean; tauto].
    destruct (status_of_cases s) as [[_ Hpos]|[Hinc _]]; [|exact Hinc].
    rewrite Hmean in Hpos. lra.
Qed.

Lemma syndrome_vector_and_status_witness :
  exists response w',
    analyze_governance_requirement (sample_env None) (__init__ (sample_env None))
      (sample_request "security") fresh_world = (inl response, w')
    /\ Cert.syndrome_vector (certificate_of (Response.qec_result response))
       = [1; 1; 1; 1; 1]%Z
    /\ Cert.status (certificate_of (Response.qec_result response)) = "COHERENT".
Proof.
  destruct (analyze_total (sample_env None) (__init__ (sample_env None))
              (sample_request "security") fresh_world) as (response & w' & Hrun).
  exists response, w'. split; [exact Hrun|].
  destruct (analyze_synthesis _ _ _ _ _ _ Hrun) as (reps & wa & wb & wc & _ & Hsyn & _).
  destruct (synthesize_fields _ _ _ _ _ _ _ _ _ Hsyn) as (s & _ & _ & _ & _ & Hvec & _).
  assert (Hones : Cert.syndrome_vector (certificate_of (Response.qec_result response))
                  = [1; 1; 1; 1; 1]%Z) by (rewrite Hvec; vm_compute; reflexivity).
  split; [exact Hones|].
  destruct (syndrome_vector_and_status _ _ _ _ _ _ Hrun) as (_ & _ & Hcond).
  destruct (Hcond (sample_env_unit_random None)) as [Hall _].
  apply Hall. rewrite Hones. repeat constructor.
Defined.

(** ** Recommendations, artifact and provider *)



(** X8. The artifact of a synthesized result follows the certificate: its
    type is [rego_policy] with the validated-policy body exactly when the
    score is positive, and [safety_protocol] with the safety-protocol body
    otherwise. *)
Theorem artifact_follows_status (env : Env) (self : QECAnalysisEngine)
    (lsu analysis_id : string) (representations : gmap string json)
    (results : list Stabilizer.t) (w w' : World) (r : Result.t) :
  synthesize env self lsu analysis_id representations results w = (inl r, w') ->
  let score := Cert.coherence_score (certificate_of r) in
  let artifact := Result.payload r in
  (Payload.artifact_type artifact = "rego_policy" <-> (0 < score)%Q)
  /\ (Payload.artifact_type artifact = "safety_protocol" <-> (score <= 0)%Q)
  /\ ((0 < score)%Q ->
      Payload.artifact_body artifact = _generate_artifact_body lsu "COHERENT")
  /\ ((score <= 0)%Q ->
      Payload.artifact_body artifact = _generate_artifact_body lsu "INCOHERENT").
Proof.
  intros Hrun score artifact. subst score artifact.
  destruct (synthesize_fields _ _ _ _ _ _ _ _ _ Hrun)
    as (s & _ & Hs & _ & _ & _ & _ & _ & _ & _ & Htype & Hbody & _).
  rewrite Hs, Htype, Hbody.
  destruct (status_of_cases s) as [[-> Hpos]|[-> Hneg]]; simpl.
  all: repeat split; intros; try reflexivity; try discriminate; try assumption; try lra.
Qed.

Lemma artifact_follows_status_witness :
  exists r w',
    synthesize (sample_env None) (__init__ (sample_env None))
      "All deployments must pass security review." "qec-1-0001" ∅
      sample_results fresh_world = (inl r, w')
    /\ Payload.artifact_type (Result.payload r) = "rego_policy".
Proof.
  destruct (synthesize_ok (sample_env None) (__init__ (sample_env None))
              "All deployments must pass security review." "qec-1-0001" ∅
              sample_results _ fresh_world eq_refl) as (r & w' & Hrun & Hscore & _).
  exists r, w'. split; [exact Hrun|].
  apply (proj1 (artifact_follows_status _ _ _ _ _ _ _ _ _ Hrun)).
  rewrite Hscore. vm_compute. reflexivity.
Defined.

Lemma detect_ai_provider_cases (self : QECAnalysisEngine) :
  (truthy (nvidia_api_key self) = true /\ _detect_ai_provider self = "nvidia-enhanced")
  \/ (truthy (nvidia_api_key self) = false /\ truthy (groq_api_key self) = true
      /\ _detect_ai_provider self = "groq-enhanced")
  \/ (truthy (nvidia_api_key self) = false /\ truthy (groq_api_key self) = false
      /\ _detect_ai_provider self = "simulation").
Proof.
  unfold _detect_ai_provider.
  destruct (truthy (nvidia_api_key self)); [auto|].
  destruct (truthy (groq_api_key self)); auto.
Qed.

Lemma analyze_provider_label (env : Env) (self : QECAnalysisEngine)
    (request : Request.t) (w w' : World) (response : Response.t) :
  analyze_governance_requirement env self request w = (inl response, w') ->
  Response.ai_provider_used response = _detect_ai_provider self
  /\ Result.ai_provider_used (Response.qec_result response) = _detect_ai_provider self.
Proof.
  intros Hrun.
  destruct (analyze_synthesis _ _ _ _ _ _ Hrun) as (reps & wa & wb & wc & _ & Hsyn & _).
  destruct (synthesize_fields _ _ _ _ _ _ _ _ _ Hsyn)
    as (s & _ & _ & _ & _ & _ & _ & _ & _ & _ & _ & _ & _ & _ & Hprov).
  destruct (analyze_run _ _ _ _ _ _ Hrun) as (w0 & w1 & Hbody & _).
  destruct (analyze_body_fields _ _ _ _ _ _ _ _ Hbody)
    as (w2 & _ & _ & _ & _ & _ & _ & _ & Hused & _).
  rewrite Hused, Hprov. auto.
Qed.

(** X9. The provider named in a response is read off the configured keys
    alone: [nvidia-enhanced] exactly when an NVIDIA key is set,
    [groq-enhanced] exactly when only a Groq key is set, [simulation] exactly
    when neither is; what the provider answered, or whether it answered at
    all, plays no part. *)
Theorem provider_label_from_keys (env : Env) (self : QECAnalysisEngine)
    (request : Request.t) (w w' : World) (response : Response.t) :
  analyze_governance_requirement env self request w = (inl response, w') ->
  let label := Response.ai_provider_used response in
  Result.ai_provider_used (Response.qec_result response) = label
  /\ (label = "nvidia-enhanced" <-> truthy (nvidia_api_key self) = true)
  /\ (label = "groq-enhanced"
      <-> truthy (nvidia_api_key self) = false /\ truthy (groq_api_key self) = true)
  /\ (label = "simulation"
      <-> truthy (nvidia_api_key self) = false /\ truthy (groq_api_key self) = false).
Proof.
  intros Hrun label. subst label.
  destruct (analyze_provider_label _ _ _ _ _ _ Hrun) as [-> ->].
  split; [reflexivity|].
  destruct (detect_ai_provider_cases self)
    as [(Hn & ->)|[(Hn & Hg & ->)|(Hn & Hg & ->)]]; rewrite Hn; try rewrite Hg.
  all: repeat split; intros; try reflexivity; try discriminate; try tauto.
  all: try match goal with H : _ /\ _ |- _ => destruct H; discriminate end.
Qed.

Lemma provider_label_from_keys_witness :
  exists response w',
    analyze_governance_requirement down_env (__init__ down_env)
      (sample_request "full") fresh_world = (inl response, w')
    /\ Response.ai_provider_used response = "nvidia-enhanced"
    /\ errors w' = 4%nat /\ successes w' = 0%nat.
Proof.
  destruct (analyze_total down_env (__init__ down_env) (sample_request "full") fresh_world)
    as (response & w' & Hrun).
  exists response, w'. split; [exact Hrun|].
  split.
  - apply (proj1 (proj2 (provider_label_from_keys _ _ _ _ _ _ Hrun))). reflexivity.
  - assert (Hw : w' = snd (analyze_governance_requirement down_env (__init__ down_env)
                             (sample_request "full") fresh_world))
      by (rewrite Hrun; reflexivity).
    rewrite Hw. split; vm_compute; reflexivity.
Defined.

Lemma quiet_generate_without_key (env : Env) (self : QECAnalysisEngine) (lsu : string) :
  truthy (nvidia_api_key self) = false ->
  quiet (_generate_representations env self lsu).
Proof.
  intros Hkey w. rewrite (generate_representations_without_key env self lsu w Hkey).
  reflexivity.
Qed.

Lemma quiet_analyze_without_key (env : Env) (self : QECAnalysisEngine)
    (request : Request.t) :
  truthy (nvidia_api_key self) = false ->
  quiet (analyze_governance_requirement env self request).
Proof.
  intros Hkey. unfold analyze_governance_requirement.
  apply quiet_bind; [auto with engine|]. intros start_time.
  apply quiet_bind; [auto with engine|]. intros now. cbv zeta.
  unfold analysis_duration_time.
  apply quiet_bind; [auto with engine|]. intros t0.
  apply quiet_try_finally; [|auto with engine].
  apply quiet_bind; [auto with engine|]. intros _.
  apply quiet_try_finally; [|auto with engine].
  apply quiet_try_except; [|auto with engine].
  unfold analyze_body. apply quiet_bind; [|intros q; cbv zeta; auto 10 with engine].
  unfold _run_qec_analysis.
  apply quiet_bind; [apply quiet_generate_without_key; exact Hkey|].
  intros reps. auto with engine.
Qed.



(** ** Gauge, counters and errors around the [try] block *)

Lemma keeps_analyze_body {B} (part : World -> B) (env : Env) (self : QECAnalysisEngine)
    (request : Request.t) (start_time : Q) (analysis_id : string) :
  pipeline_frame part ->
  (forall k v, keeps part (set_coherence_score_gauge k v)) ->
  (forall a b, keeps part (inc_analysis_requests_total a b)) ->
  keeps part (analyze_body env self request start_time analysis_id).
Proof.
  intros Hframe Hset Hinc.
  pose proof Hframe as ((Hpost & Hprov & Hlog) & Htick & Hdraw).
  unfold analyze_body.
  apply keeps_bind; [apply keeps_run_qec_analysis; exact Hframe|]. intros q. cbv zeta.
  apply keeps_bind.
  { unfold time_time. apply keeps_bind; [exact Htick | intros n; apply keeps_ret]. }
  intros now. apply keeps_bind; [apply Hset|]. intros _.
  apply keeps_bind.
  { unfold utcnow_isoformat. apply keeps_bind; [exact Htick | intros n; apply keeps_ret]. }
  intros ts. apply keeps_bind; [unfold _record_audit_entry; cbv zeta; apply Hlog|].
  intros _. apply keeps_bind; [apply Hinc | intros _; apply keeps_ret].
Qed.

Lemma in_flight_restores (env : Env) (analysis_type analysis_id : string)
    (body : M Response.t) (w : World) :
  keeps in_flight_gauge body ->
  in_flight_gauge (snd (in_flight env analysis_type analysis_id body w))
  = in_flight_gauge w.
Proof.
  intros Hkeeps. pose proof (Hkeeps (entered w)) as Hg. rewrite entered_gauge in Hg.
  destruct (body (entered w)) as [[resp|e] w2] eqn:Hbody; simpl in Hg.
  - destruct (in_flight_success env analysis_type analysis_id body w w2 resp Hbody)
      as (w3 & Hrun & Hg3 & _).
    rewrite Hrun. simpl. lia.
  - destruct (in_flight_failure env analysis_type analysis_id body w w2 e Hbody)
      as (w3 & Hrun & Hg3 & _).
    rewrite Hrun. simpl. lia.
Qed.

(** X11. The in-flight gauge is back at its earlier value after every
    analysis; the frame around the [try] block guarantees it for any block
    that leaves the gauge alone, whether the block returns or raises. *)
Theorem in_flight_gauge_restored (env : Env) (self : QECAnalysisEngine)
    (request : Request.t) (w : World) :
  active_analyses (metrics (snd (analyze_governance_requirement env self request w)))
  = active_analyses (metrics w)
  /\ forall (analysis_type analysis_id : string) (body : M Response.t),
       keeps in_flight_gauge body ->
       active_analyses
         (metrics (snd (in_flight env analysis_type analysis_id body w)))
       = active_analyses (metrics w).
Proof.
  split.
  - rewrite analyze_unfold.
    apply (in_flight_restores env _ _ _
             {| metrics := metrics w; logger := logger w; clock := S (S (clock w));
                rng := rng w; http_posts := http_posts w |}).
    apply keeps_analyze_body.
    + apply pipeline_frame_in_flight_gauge.
    + intros k v w0. reflexivity.
    + intros a b w0. reflexivity.
  - intros analysis_type analysis_id body Hkeeps.
    apply (in_flight_restores env analysis_type analysis_id body w Hkeeps).
Qed.

Lemma in_flight_gauge_restored_witness :
  active_analyses
    (metrics (snd (in_flight (sample_env None) "full" "qec-1-0001" failing_body fresh_world)))
  = 0%Z.
Proof.
  apply (proj2 (in_flight_gauge_restored (sample_env None) (__init__ (sample_env None))
                  (sample_request "full") fresh_world) "full" "qec-1-0001" failing_body).
  intros w. reflexivity.
Defined.

(** X12. When the [try] block raises an exception the caller gets an
    [HTTPException] with status 500 whose detail is [Analysis failed: ]
    followed by the text of the exception; the request counter moves by one
    under the label (analysis type, [error]) and not under [success], the
    failure is logged with the analysis identifier, and no coherence gauge
    is set. *)
Theorem failure_is_wrapped_and_counted (env : Env) (analysis_type analysis_id : string)
    (body : M Response.t) (w w2 : World) (e : exn) :
  body (entered w) = (inr e, w2) ->
  let run := in_flight env analysis_type analysis_id body w in
  fst run = inr (HTTPException 500 ("Analysis failed: " +:+ str_exn e))
  /\ counter_value (request_counter (snd run)) (analysis_type, "error")
     = S (counter_value (request_counter w2) (analysis_type, "error"))
  /\ counter_value (request_counter (snd run)) (analysis_type, "success")
     = counter_value (request_counter w2) (analysis_type, "success")
  /\ logger (snd run)
     = (logger w2 ++ [ ("ERROR", "Analysis failed for " +:+ analysis_id +:+ ": "
                                  +:+ str_exn e) ])%list
  /\ score_gauge (snd run) = score_gauge w2
  /\ in_flight_gauge (snd run) = (in_flight_gauge w2 - 1)%Z.
Proof.
  intros Hbody run. subst run.
  destruct (in_flight_failure env analysis_type analysis_id body w w2 e Hbody)
    as (w3 & Hrun & Hg & Hc & Hl & Hs & _).
  rewrite Hrun. simpl. rewrite Hc.
  split; [reflexivity|].
  split; [apply counter_inc_same|].
  split; [apply counter_inc_other; intros H; injection H as H; discriminate|].
  auto.
Qed.

Lemma failure_is_wrapped_and_counted_witness :
  fst (in_flight (sample_env None) "full" "qec-1-0001" failing_body fresh_world)
  = inr (HTTPException 500 "Analysis failed: division by zero").
Proof.
  apply (failure_is_wrapped_and_counted (sample_env None) "full" "qec-1-0001"
           failing_body fresh_world (entered fresh_world)
           (ZeroDivisionError "division by zero") eq_refl).
Defined.

(** X13. A successful analysis moves the request counter by one under the
    label (analysis type, [success]) and under no other label, sets the
    coherence gauge of its own analysis identifier to the confidence score
    of the response and leaves the other gauges alone, and adds one
    non-negative observation to the duration histogram. *)
Theorem success_is_counted (env : Env) (self : QECAnalysisEngine)
    (request : Request.t) (w w' : World) (response : Response.t) :
  analyze_governance_requirement env self request w = (inl response, w') ->
  let label := (Request.analysis_type request, "success") in
  counter_value (request_counter w') label = S (counter_value (request_counter w) label)
  /\ (forall other, other <> label ->
      counter_value (request_counter w') other = counter_value (request_counter w) other)
  /\ score_gauge w' !! Response.analysis_id response
     = Some (Response.confidence_score response)
  /\ (forall other, other <> Response.analysis_id response ->
      score_gauge w' !! other = score_gauge w !! other)
  /\ exists d, analysis_duration (metrics w')
               = (analysis_duration (metrics w) ++ [d])%list /\ (0 <= d)%Q.
Proof.
  intros Hrun label. subst label.
  destruct (analyze_run _ _ _ _ _ _ Hrun)
    as (w0 & w1 & Hbody & _ & _ & _ & Hc0 & Hs0 & Hd0 & _ & Hc & Hs & _ & (d & Hd & Hpos)).
  destruct (analyze_body_fields _ _ _ _ _ _ _ _ Hbody)
    as (w2 & Hq & Hid & _ & _ & _ & _ & _ & _ & _ & Hc2 & Hs2 & _ & _ & Hd2 & _).
  pose proof (keeps_run_qec_analysis request_counter env self (Request.lsu request)
                (analysis_id_of env (time_at env (S (clock w))) (Request.lsu request))
                pipeline_frame_request_counter (entered w0)) as Kc.
  pose proof (keeps_run_qec_analysis score_gauge env self (Request.lsu request)
                (analysis_id_of env (time_at env (S (clock w))) (Request.lsu request))
                pipeline_frame_score_gauge (entered w0)) as Ks.
  pose proof (keeps_run_qec_analysis (fun w => analysis_duration (metrics w)) env self
                (Request.lsu request)
                (analysis_id_of env (time_at env (S (clock w))) (Request.lsu request))
                pipeline_frame_durations (entered w0)) as Kd.
  rewrite Hq in Kc, Ks, Kd. simpl in Kc, Ks, Kd.
  change (request_counter (entered w0)) with (request_counter w0) in Kc.
  change (score_gauge (entered w0)) with (score_gauge w0) in Ks.
  change (analysis_duration (metrics (entered w0)))
    with (analysis_duration (metrics w0)) in Kd.
  rewrite Hc, Hc2, Kc, Hc0. rewrite Hs, Hs2, Ks, Hs0. rewrite Hid.
  split; [apply counter_inc_same|].
  split; [intros other Hne; apply counter_inc_other; congruence|].
  split; [apply lookup_insert_eq|].
  split; [intros other Hne; apply lookup_insert_ne; congruence|].
  exists d. rewrite Hd, Hd2, Kd, Hd0. auto.
Qed.

Lemma success_is_counted_witness :
  exists response w',
    analyze_governance_requirement (sample_env None) (__init__ (sample_env None))
      (sample_request "security") fresh_world = (inl response, w')
    /\ counter_value (request_counter w') ("security", "success") = 1%nat.
Proof.
  destruct (analyze_total (sample_env None) (__init__ (sample_env None))
              (sample_request "security") fresh_world) as (response & w' & Hrun).
  exists response, w'. split; [exact Hrun|].
  exact (proj1 (success_is_counted _ _ _ _ _ _ Hrun)).
Defined.

(** ** Identifiers *)

Lemma pad0_four_digits (z : Z) :
  (0 <= z < 10000)%Z ->
  String.length (pad0 4 z) = 4%nat /\ is_digits (pad0 4 z) = true.
Proof.
  intros Hz.
  assert (Hall : List.forallb four_digits (List.seq 0 (Z.to_nat 10000)) = true)
    by (vm_compute; reflexivity).
  rewrite List.forallb_forall in Hall.
  specialize (Hall (Z.to_nat z)).
  assert (Hin : List.In (Z.to_nat z) (List.seq 0 (Z.to_nat 10000))).
  { apply List.in_seq. lia. }
  apply Hall in Hin. unfold four_digits in Hin.
  rewrite Z2Nat.id in Hin by lia.
  apply andb_true_iff in Hin as [Hlen Hdig].
  apply Nat.eqb_eq in Hlen. auto.
Qed.

(** X14. The analysis identifier is [qec-], the whole seconds of the clock,
    a dash and the hash of the LSU modulo 10000 written with exactly four
    decimal digits, whatever the sign of the hash. *)
Theorem analysis_id_format (env : Env) (self : QECAnalysisEngine)
    (request : Request.t) (w w' : World) (response : Response.t) :
  analyze_governance_requirement env self request w = (inl response, w') ->
  exists suffix,
    Response.analysis_id response
    = "qec-" +:+ str_int (int_of (time_at env (S (clock w)))) +:+ "-" +:+ suffix
    /\ suffix = pad0 4 (hash_of env (Request.lsu request) mod 10000)
    /\ String.length suffix = 4%nat
    /\ is_digits suffix = true.
Proof.
  intros Hrun.
  destruct (analyze_run _ _ _ _ _ _ Hrun) as (w0 & w1 & Hbody & _).
  destruct (analyze_body_fields _ _ _ _ _ _ _ _ Hbody) as (w2 & _ & Hid & _).
  exists (pad0 4 (hash_of env (Request.lsu request) mod 10000)).
  split; [rewrite Hid; reflexivity|]. split; [reflexivity|].
  apply pad0_four_digits. apply Z.mod_pos_bound. lia.
Qed.

Lemma analysis_id_format_witness :
  exists response w',
    analyze_governance_requirement (sample_env None) (__init__ (sample_env None))
      (sample_request "security") fresh_world = (inl response, w')
    /\ Response.analysis_id response = "qec-1700000001-9993".
Proof.
  destruct (analyze_total (sample_env None) (__init__ (sample_env None))
              (sample_request "security") fresh_world) as (response & w' & Hrun).
  exists response, w'. split; [exact Hrun|].
  destruct (analysis_id_format _ _ _ _ _ _ Hrun) as (suffix & Hid & Hsuffix & _).
  rewrite Hid, Hsuffix. vm_compute. reflexivity.
Defined.

(** X15. Every identifier in a response derives from its analysis
    identifier: the audit trail is [audit-] plus it, the diagnosis [diag-]
    plus it, the artifact [artifact-] plus it, the signature value [sig-]
    plus it, and the LSU identifiers of certificate and payload and the
    decision identifier of the audit entry are the identifier itself. *)
Theorem identifiers_derive_from_analysis_id (env : Env) (self : QECAnalysisEngine)
    (request : Request.t) (w w' : World) (response : Response.t) :
  analyze_governance_requirement env self request w = (inl response, w') ->
  let id := Response.analysis_id response in
  let result := Response.qec_result response in
  Response.audit_trail_id response = "audit-" +:+ id
  /\ Cert.diagnosis_id (certificate_of result) = "diag-" +:+ id
  /\ Cert.lsu_id (certificate_of result) = id
  /\ Payload.artifact_id (Result.payload result) = "artifact-" +:+ id
  /\ Payload.lsu_id (Result.payload result) = id
  /\ Signature.value (Result.signature result) = "sig-" +:+ id
  /\ Audit.decision_id (audit_entry response) = id.
Proof.
  intros Hrun id result. subst id result.
  destruct (analyze_synthesis _ _ _ _ _ _ Hrun) as (reps & wa & wb & wc & _ & Hsyn & _).
  destruct (synthesize_fields _ _ _ _ _ _ _ _ _ Hsyn)
    as (s & _ & _ & _ & _ & _ & Hdiag & Hlsu & Hart & Hplsu & _ & _ & _ & Hsig & _).
  destruct (analyze_run _ _ _ _ _ _ Hrun) as (w0 & w1 & Hbody & _).
  destruct (analyze_body_fields _ _ _ _ _ _ _ _ Hbody) as (w2 & _ & Hid & Haudit & _).
  split; [rewrite Haudit, Hid; reflexivity|].
  repeat split; try assumption.
Qed.

Lemma identifiers_derive_from_analysis_id_witness :
  exists response w',
    analyze_governance_requirement (sample_env None) (__init__ (sample_env None))
      (sample_request "security") fresh_world = (inl response, w')
    /\ Response.audit_trail_id response = "audit-" +:+ Response.analysis_id response.
Proof.
  destruct (analyze_total (sample_env None) (__init__ (sample_env None))
              (sample_request "security") fresh_world) as (response & w' & Hrun).
  exists response, w'. split; [exact Hrun|].
  exact (proj1 (identifiers_derive_from_analysis_id _ _ _ _ _ _ Hrun)).
Defined.

(** ** Compliance of a pipeline run *)

(** X16. In a response the compliance status is decided by the score alone:
    COMPLIANT exactly for a score of at least 0.8, NON_COMPLIANT exactly
    for a score below 0.5, REVIEW_REQUIRED exactly in between; hence the
    audit decision is ALLOW exactly for a score of at least 0.8. *)
Theorem compliance_by_score (env : Env) (self : QECAnalysisEngine)
    (request : Request.t) (w w' : World) (response : Response.t) :
  analyze_governance_requirement env self request w = (inl response, w') ->
  let score := Response.confidence_score response in
  let compliance := Response.compliance_status response in
  (compliance = "COMPLIANT" <-> (0.8 <= score)%Q)
  /\ (compliance = "NON_COMPLIANT" <-> (score < 0.5)%Q)
  /\ (compliance = "REVIEW_REQUIRED" <-> (0.5 <= score)%Q /\ (score < 0.8)%Q)
  /\ (Audit.decision (audit_entry response) = "ALLOW" <-> (0.8 <= score)%Q).
Proof.
  intros Hrun score compliance. subst score compliance.
  destruct (analyze_synthesis _ _ _ _ _ _ Hrun) as (reps & wa & wb & wc & _ & Hsyn & Hconf).
  destruct (synthesize_fields _ _ _ _ _ _ _ _ _ Hsyn) as (s & _ & Hs & Hst & _).
  destruct (analyze_run _ _ _ _ _ _ Hrun) as (w0 & w1 & Hbody & _).
  destruct (analyze_body_fields _ _ _ _ _ _ _ _ Hbody)
    as (w2 & _ & _ & _ & _ & _ & Hcomp & _).
  unfold audit_entry. cbn [Audit.decision].
  rewrite Hcomp, Hconf. unfold _assess_compliance. rewrite Hst, Hs.
  assert (Hge : Qgeb s 0.8 = true /\ (0.8 <= s)%Q \/ Qgeb s 0.8 = false /\ (s < 0.8)%Q).
  { destruct (Qgeb s 0.8) eqn:E; [left; split; [reflexivity | apply Qgeb_spec; exact E]|].
    right. split; [reflexivity|]. apply Qnot_le_lt. intros H.
    apply Qgeb_spec in H. congruence. }
  assert (Hlt : Qltb s 0.5 = true /\ (s < 0.5)%Q \/ Qltb s 0.5 = false /\ (0.5 <= s)%Q).
  { destruct (Qltb s 0.5) eqn:E; [left; split; [reflexivity | apply Qltb_spec; exact E]|].
    right. split; [reflexivity|]. apply Qnot_lt_le. intros H.
    apply Qltb_spec in H. congruence. }
  destruct (status_of_cases s) as [[-> Hpos]|[-> Hneg]];
    destruct Hge as [[-> Hge]|[-> Hge]]; destruct Hlt as [[-> Hlt]|[-> Hlt]];
    cbn [String.eqb Ascii.eqb Bool.eqb andb orb].
  all: repeat split; intros; try reflexivity; try discriminate; try lra.
  all: try match goal with H : _ /\ _ |- _ => destruct H; lra end.
Qed.

Lemma compliance_by_score_witness :
  exists response w',
    analyze_governance_requirement (sample_env None) (__init__ (sample_env None))
      (sample_request "security") fresh_world = (inl response, w')
    /\ (Response.compliance_status response = "COMPLIANT"
        <-> (0.8 <= Response.confidence_score response)%Q).
Proof.
  destruct (analyze_total (sample_env None) (__init__ (sample_env None))
              (sample_request "security") fresh_world) as (response & w' & Hrun).
  exists response, w'. split; [exact Hrun|].
  exact (proj1 (compliance_by_score _ _ _ _ _ _ Hrun)).
Defined.

(** X17. A response carries a policy exactly when the integration mode of
    the request is [opa], and then it is the policy generated from the
    certificate of that same response for the analysis type of the request;
    the recommendations and the LSU echoed in the response are those of the
    same certificate and request. *)
Theorem policy_only_in_opa_mode (env : Env) (self : QECAnalysisEngine)
    (request : Request.t) (w w' : World) (response : Response.t) :
  analyze_governance_requirement env self request w = (inl response, w') ->
  (Response.opa_policy response = None <-> Request.integration_mode request <> "opa")
  /\ (Request.integration_mode request = "opa" ->
      Response.opa_policy response
      = Some (_generate_opa_policy (Response.qec_result response)
                (Request.analysis_type request)))
  /\ Response.recommendations response
     = _generate_recommendations (Response.qec_result response)
         (Request.analysis_type request)
  /\ Response.lsu_input response = Request.lsu request.
Proof.
  intros Hrun.
  destruct (analyze_run _ _ _ _ _ _ Hrun) as (w0 & w1 & Hbody & _).
  destruct (analyze_body_fields _ _ _ _ _ _ _ _ Hbody)
    as (w2 & _ & _ & _ & Hlsu & Hopa & _ & Hrec & _).
  rewrite Hopa.
  destruct (String.eqb_spec (Request.integration_mode request) "opa") as [Hm|Hm].
  - repeat split; intros; try assumption; try reflexivity; try discriminate; congruence.
  - repeat split; intros; try assumption; try reflexivity; congruence.
Qed.

Lemma policy_only_in_opa_mode_witness :
  exists response w',
    analyze_governance_requirement (sample_env None) (__init__ (sample_env None))
      (sample_request "security") fresh_world = (inl response, w')
    /\ Response.opa_policy response
       = Some (_generate_opa_policy (Response.qec_result response) "security").
Proof.
  destruct (analyze_total (sample_env None) (__init__ (sample_env None))
              (sample_request "security") fresh_world) as (response & w' & Hrun).
  exists response, w'. split; [exact Hrun|].
  exact (proj1 (proj2 (policy_only_in_opa_mode _ _ _ _ _ _ Hrun)) eq_refl).
Defined.

(** ** Provider replies *)

Lemma generate_one_failure (env : Env) (lsu : string) (representations : gmap string json)
    (filename prompt : string) (w : World) (e : exn) :
  response_content (provider env (calls w) prompt) = inr e ->
  exists w',
    generate_one env lsu representations (filename, prompt) w
    = (inl (<[filename := JStr (_get_template_content filename lsu)]> representations), w')
    /\ errors w' = S (errors w)
    /\ successes w' = successes w
    /\ attempts w' = attempts w
    /\ logger w'
       = (logger w ++ [ ("WARNING", "Failed to generate " +:+ filename +:+ ": "
                                     +:+ str_exn e) ])%list
    /\ http_posts w' = (http_posts w ++ [prompt])%list.
Proof.
  intros He. unfold calls in He.
  unfold generate_one, try_except, bind, post, lift. simpl. rewrite He. simpl.
  eexists. split; [reflexivity|]. simpl.
  unfold attempts, successes, errors. simpl.
  rewrite ?counter_inc_same, ?counter_inc_other by discriminate.
  repeat split.
Qed.

(** X18. A reply whose status is not 200 is an error whatever its body
    holds, and so is a connection failure; for any failed provider call
    the kind gets its Template Library content, the error counter moves by
    one and the success counter not at all, and one warning is logged that
    starts with [Failed to generate], the filename and a colon; for a
    status other than 200 the warning ends with [API error: ] and the
    status. *)
Theorem failed_call_falls_back (env : Env) (lsu : string)
    (representations : gmap string json) (filename prompt : string) (w : World) :
  (forall status body, status <> 200%Z ->
     exists e, response_content (Response status body) = inr e)
  /\ (forall e, response_content (ConnectionFailed e) = inr e)
  /\ forall e,
       response_content (provider env (calls w) prompt) = inr e ->
       exists w' cause,
         generate_one env lsu representations (filename, prompt) w
         = (inl (<[filename := JStr (_get_template_content filename lsu)]> representations),
            w')
         /\ errors w' = S (errors w)
         /\ successes w' = successes w
         /\ logger w'
            = (logger w ++ [ ("WARNING", "Failed to generate " +:+ filename +:+ ": "
                                          +:+ cause) ])%list
         /\ (forall status body,
               provider env (calls w) prompt = Response status body ->
               status <> 200%Z ->
               cause = "API error: " +:+ str_int status).
Proof.
  assert (Hstatus : forall status body, status <> 200%Z ->
            response_content (Response status body)
            = inr (Exception ("API error: " +:+ str_int status))).
  { intros status body Hne. unfold response_content.
    destruct (Z.eqb_spec status 200); [contradiction | reflexivity]. }
  split; [intros status body Hne; rewrite (Hstatus status body Hne); eauto|].
  split; [reflexivity|].
  intros e He.
  destruct (generate_one_failure env lsu representations filename prompt w e He)
    as (w' & Hrun & Herr & Hsucc & _ & Hlog & _).
  exists w', (str_exn e). repeat split; try assumption.
  intros status body Hreply Hne.
  rewrite Hreply, (Hstatus status body Hne) in He. injection He as <-. reflexivity.
Qed.

Lemma failed_call_falls_back_witness :
  exists w',
    generate_one (sample_env (Some "nvapi-key")) "LSU"
      (<["policy.rego" := JStr "AI: policy"]> ∅)
      ("specification.tla", "Create a TLA+ specification for: LSU")
      {| metrics := no_metrics; logger := []; clock := 0; rng := 0;
         http_posts := [ "Generate a complete Rego policy for: LSU" ] |}
    = (inl (<["specification.tla" := JStr (_get_template_content "specification.tla" "LSU")]>
              (<["policy.rego" := JStr "AI: policy"]> ∅)), w')
    /\ errors w' = 1%nat
    /\ logger w' = [ ("WARNING", "Failed to generate specification.tla: API error: 500") ].
Proof.
  destruct (proj2 (proj2 (failed_call_falls_back (sample_env (Some "nvapi-key")) "LSU"
                            (<["policy.rego" := JStr "AI: policy"]> ∅)
                            "specification.tla" "Create a TLA+ specification for: LSU"
                            {| metrics := no_metrics; logger := []; clock := 0; rng := 0;
                               http_posts := [ "Generate a complete Rego policy for: LSU" ] |}))
              _ eq_refl) as (w' & cause & Hrun & Herr & _ & Hlog & Hcause).
  exists w'. split; [exact Hrun|]. split; [exact Herr|].
  rewrite Hlog, (Hcause 500%Z None eq_refl) by discriminate. reflexivity.
Defined.

(** ** Template Library *)

(** X19. For a filename that is none of the four artifact filenames the
    Template Library returns the two-line default that names the file and
    carries the whole LSU; for each of the four it returns that file's
    template. *)
Theorem template_for_unknown_filename (filename lsu : string) :
  (~ In filename artifact_filenames ->
   _get_template_content filename lsu
   = "# Generated content for " +:+ filename +:+ nl +:+ "# LSU: " +:+ lsu)
  /\ _get_template_content "policy.rego" lsu = template_policy_rego lsu
  /\ _get_template_content "specification.tla" lsu = template_specification_tla lsu
  /\ _get_template_content "test_suite.py" lsu = template_test_suite_py lsu
  /\ _get_template_content "documentation.md" lsu = template_documentation_md lsu.
Proof.
  split; [|repeat split].
  intros Hnot. unfold _get_template_content, templates. cbn [assoc_get].
  simpl in Hnot.
  destruct (String.eqb_spec "policy.rego" filename) as [H|_]; [tauto|].
  destruct (String.eqb_spec "specification.tla" filename) as [H|_]; [tauto|].
  destruct (String.eqb_spec "test_suite.py" filename) as [H|_]; [tauto|].
  destruct (String.eqb_spec "documentation.md" filename) as [H|_]; [tauto|].
  reflexivity.
Qed.

Lemma template_for_unknown_filename_witness :
  _get_template_content "README.md" "LSU"
  = "# Generated content for README.md" +:+ nl +:+ "# LSU: LSU".
Proof.
  apply (proj1 (template_for_unknown_filename "README.md" "LSU")).
  simpl. intros [H|[H|[H|[H|[]]]]]; discriminate.
Defined.

Lemma take_chars_len (s : string) :
  forall n, (py_len (take_chars n s) <= n)%nat.
Proof.
  induction s as [|c s IH]; intros n; cbn [take_chars py_len]; [lia|].
  destruct (is_continuation c) eqn:E.
  - cbn [py_len]. rewrite E. apply IH.
  - destruct n as [|n]; cbn [py_len]; [lia|]. rewrite E. specialize (IH n). lia.
Qed.

Lemma py_len_append (a b : string) : py_len (a +:+ b) = (py_len a + py_len b)%nat.
Proof.
  induction a as [|c a IH]; [reflexivity|].
  change ((if is_continuation c then 0 else 1) + py_len (a +:+ b)
          = (if is_continuation c then 0 else 1) + py_len a + py_len b)%nat.
  rewrite IH. lia.
Qed.

(** Slicing counts code points: sixty two-byte characters fit in a slice of
    a hundred, and a hundred and one of them are cut to a hundred. *)
Example prefix_slice_counts_code_points :
  prefix_slice 100 (long_text 60 "é") = long_text 60 "é"
  /\ prefix_slice 100 (long_text 101 "é") = long_text 100 "é"
  /\ py_len (long_text 60 "é") = 60%nat.
Proof. vm_compute. repeat split. Qed.

(** X20. Only the first 100 characters of the LSU reach the policy, the
    specification and the test-suite templates and the preview of the
    audit entry: two LSUs that agree on them give the same three templates
    and the same preview, and the preview is never longer than 103
    characters. *)
Theorem lsu_is_truncated (lsu lsu' : string) (response response' : Response.t) :
  prefix_slice 100 lsu = prefix_slice 100 lsu' ->
  Response.lsu_input response = lsu ->
  Response.lsu_input response' = lsu' ->
  template_policy_rego lsu = template_policy_rego lsu'
  /\ template_specification_tla lsu = template_specification_tla lsu'
  /\ template_test_suite_py lsu = template_test_suite_py lsu'
  /\ Audit.lsu_preview (Audit.metadata (audit_entry response))
     = Audit.lsu_preview (Audit.metadata (audit_entry response'))
  /\ (py_len (Audit.lsu_preview (Audit.metadata (audit_entry response))) <= 103)%nat.
Proof.
  intros Hsame Hl Hl'.
  unfold template_policy_rego, template_specification_tla, template_test_suite_py,
    audit_entry.
  cbn [Audit.metadata Audit.lsu_preview]. rewrite Hl, Hl', Hsame.
  repeat split.
  rewrite py_len_append. unfold prefix_slice.
  pose proof (take_chars_len lsu' 100).
  change (py_len "...") with 3%nat. lia.
Qed.

Lemma lsu_is_truncated_witness :
  long_lsu "é" <> long_lsu "ü"
  /\ template_policy_rego (long_lsu "é") = template_policy_rego (long_lsu "ü").
Proof.
  split; [vm_compute; discriminate|].
  apply (lsu_is_truncated (long_lsu "é") (long_lsu "ü")
           {| Response.analysis_id := "x"; Response.timestamp := "";
              Response.lsu_input := long_lsu "é";
              Response.qec_result := result_with "COHERENT" 0.85;
              Response.opa_policy := None; Response.compliance_status := "COMPLIANT";
              Response.audit_trail_id := "audit-x"; Response.recommendations := [];
              Response.processing_time_ms := 0; Response.ai_provider_used := "simulation";
              Response.confidence_score := 0.85 |}
           {| Response.analysis_id := "x"; Response.timestamp := "";
              Response.lsu_input := long_lsu "ü";
              Response.qec_result := result_with "COHERENT" 0.85;
              Response.opa_policy := None; Response.compliance_status := "COMPLIANT";
              Response.audit_trail_id := "audit-x"; Response.recommendations := [];
              Response.processing_time_ms := 0; Response.ai_provider_used := "simulation";
              Response.confidence_score := 0.85 |}).
  - vm_compute. reflexivity.
  - reflexivity.
  - reflexivity.
Defined.

(** ** Success and error counters *)

Lemma for_each_generate_counts (env : Env) (lsu : string) (items : list (string * string)) :
  forall (representations : gmap string json) (w : World),
  exists w',
    for_each (generate_one env lsu) items representations w
    = (inl (fold_kinds env lsu (calls w) items representations), w')
    /\ successes w' = (successes w + count_successes env (calls w) items)%nat
    /\ (errors w' + count_successes env (calls w) items
        = errors w + List.length items)%nat
    /\ (count_successes env (calls w) items <= List.length items)%nat.
Proof.
  induction items as [|item rest IH]; intros representations w; simpl.
  - exists w. unfold ret. repeat split; lia.
  - destruct (generate_one_run env lsu representations item w)
      as (w1 & Hrun & Hposts & _ & Hsucc & Herr).
    unfold bind. rewrite Hrun.
    destruct (IH (<[fst item := kind_result env lsu (calls w) item]> representations) w1)
      as (w2 & Hrest & Hsucc2 & Herr2 & Hle).
    assert (Hcalls : calls w1 = S (calls w)).
    { unfold calls. rewrite Hposts, length_app. simpl. lia. }
    rewrite Hcalls in Hrest, Hsucc2, Herr2, Hle.
    exists w2. split; [exact Hrest|].
    rewrite Hsucc2, Hsucc.
    destruct (kind_succeeds env (calls w) item); repeat split; lia.
Qed.



(** ** The pipeline cannot divide by zero *)

(** X22. Because the runner always checks five stabilizers, the division
    of the synthesizer is never by zero inside the pipeline: an analysis
    returns a response for every request and every behaviour of provider,
    clock and random source, and never the 500 error. *)
Theorem analysis_never_divides_by_zero (env : Env) (self : QECAnalysisEngine)
    (request : Request.t) (w : World) :
  (exists response w',
     analyze_governance_requirement env self request w = (inl response, w')
     /\ exists s, aggregate (checks_from env (rng w) stabilizers) = inl s
                  /\ Response.confidence_score response = s)
  /\ forall e w', analyze_governance_requirement env self request w <> (inr e, w').
Proof.
  destruct (analyze_total env self request w) as (response & w' & Hrun).
  split.
  - exists response, w'. split; [exact Hrun|].
    destruct (analyze_synthesis _ _ _ _ _ _ Hrun) as (reps & wa & wb & wc & _ & Hsyn & Hconf).
    destruct (synthesize_fields _ _ _ _ _ _ _ _ _ Hsyn) as (s & Hagg & Hs & _).
    exists s. split; [exact Hagg | congruence].
  - intros e w'' H. rewrite Hrun in H. discriminate.
Qed.

(** ** What a successful reply may carry *)


